(** * CodeAnalyzer: profiling harness, history store and comparison

    A shallow embedding of [code_analyzer.py].  The Python methods of
    [CodeAnalyzer] become functions in a state-and-exception monad over a
    [World] that holds what the methods mutate: the process-global
    [sys.modules], the two instruments ([tracemalloc] and the [cProfile]
    profiler), the history file and the plots written to disk.  Every
    instrument, loader and test call is also logged in [events], so that
    the order of the steps can be stated.

    What the model takes from outside the program:
    - a test file is given by its text, if it decodes as text, and by
      what executing it does (the bindings it makes, the modules it
      imports, the exception that ends it); its code and its tests act on
      nothing else in the world;
    - the readings of the clock and of the instruments, and the answer of
      the analysis endpoint, are arguments of the functions that use them;
    - floats are rationals; no statement below depends on rounding;
    - the message texts of the exceptions raised by libraries are
      indicative: the statements depend on the class, and on the message
      only as the text [str(e)] that the program copies. *)

From Stdlib Require Import QArith Ascii String.
From stdpp Require Import gmap strings list sorting.

Open Scope Z_scope.
Open Scope string_scope.
Open Scope list_scope.

(** ** Python strings

    [str] is modelled as [string] (a sequence of bytes, UTF-8 for text);
    byte-wise lexicographic comparison of UTF-8 agrees with Python's
    comparison by code point. *)
Module Str.

Definition nl : string := String "010"%char "".

(** [sep.join(l)] *)
Fixpoint join (sep : string) (l : list string) : string :=
  match l with
  | [] => ""
  | [x] => x
  | x :: r => x +:+ sep +:+ join sep r
  end.

(** [s.startswith(p)] *)
Definition startswith (s p : string) : bool := String.prefix p s.

(** [needle in hay] *)
Fixpoint contains (needle hay : string) : bool :=
  String.prefix needle hay ||
  match hay with
  | "" => false
  | String _ hay' => contains needle hay'
  end.

(** [c.lower()] on the ASCII letters.  The bytes of other characters
    are left as they are: lower-casing beyond ASCII is not modelled. *)
Definition lower_ascii (c : ascii) : ascii :=
  let n := N_of_ascii c in
  if ((65 <=? n) && (n <=? 90))%N then ascii_of_N (n + 32) else c.

(** [s.lower()] *)
Fixpoint lower (s : string) : string :=
  match s with
  | "" => ""
  | String c s' => String (lower_ascii c) (lower s')
  end.

(** [s.endswith(p)] *)
Definition endswith (s p : string) : bool :=
  String.prefix (String.rev p) (String.rev s).

(** [s.replace(c, d)] for one-character [c] and [d]. *)
Fixpoint replace_char (c d : ascii) (s : string) : string :=
  match s with
  | "" => ""
  | String x s' => String (if Ascii.eqb x c then d else x) (replace_char c d s')
  end.

(** [os.path.basename(p)] (posix): what follows the last slash. *)
Fixpoint basename_go (cur s : string) : string :=
  match s with
  | "" => String.rev cur
  | String c s' =>
      if Ascii.eqb c "/"%char then basename_go "" s'
      else basename_go (String c cur) s'
  end.
Definition basename (p : string) : string := basename_go "" p.

End Str.

(** ** Exceptions *)

Inductive ExnClass :=
  | AssertionError | TypeError | ValueError | KeyError | AttributeError
  | FileNotFoundError | SyntaxError | JSONDecodeError
  | ImportError | UnicodeDecodeError
  | RequestException | HTTPError
  | OtherException (name : string)
  | KeyboardInterrupt | SystemExit
  | OtherBaseException (name : string).

(** [isinstance(e, Exception)]: what [except Exception] catches. *)
Definition is_Exception (c : ExnClass) : bool :=
  match c with
  | KeyboardInterrupt | SystemExit | OtherBaseException _ => false
  | _ => true
  end.

Record PyExn := mkExn { exn_class : ExnClass; exn_str : string }.

(** ** Values and loaded modules *)

Inductive PyVal := PyNone | PyBool (b : bool) | PyInt (n : Z) | PyStr (s : string).

(** What calling an attribute with no arguments does. *)
Inductive CallResult := Returns (v : PyVal) | Raises (e : PyExn).

(** A module attribute: a callable with its behaviour on [f()], or an
    object of type [type_name] that is not callable. *)
Inductive Attr :=
  | Callable (behaviour : CallResult)
  | NotCallable (type_name : string).

(** A module's namespace, as the bindings its top-level code made, in
    the order it made them; a later binding of a name replaces an
    earlier one. *)
Definition PyModule := list (string * Attr).

(** [getattr(m, name)] *)
Fixpoint getattr (m : PyModule) (name : string) : option Attr :=
  match m with
  | [] => None
  | (n, a) :: r =>
      match getattr r name with
      | Some a' => Some a'
      | None => if decide (n = name) then Some a else None
      end
  end.

(** [dir(m)]: the names of the module, sorted, none twice. *)
Definition dir (m : PyModule) : list string :=
  merge_sort String.le (remove_dups (m.*1)).

(** A file on disk: its text as [open(path, 'r').read()] gives it ([None]
    when the bytes do not decode, as for bytecode or a source in another
    encoding), and what executing it as a module does: the bindings made,
    the exception that ended it, if any (a syntax error counts as one, with
    no binding made), and the modules its code imported on the way. *)
Record SourceFile := {
  text : option string;
  top_level : PyModule;
  top_level_raises : option PyExn;
  imported : gmap string PyModule
}.

(** ** Profile records *)

Record MemoryUsage := { current : Q; peak : Q }.

Record ProfileData := {
  profile_stats : string;
  test_file : string;
  test_output : string;
  timestamp : string;
  execution_time : Q;
  memory_usage : MemoryUsage
}.

Record ComparativeData := {
  test_file1 : string;
  test_file2 : string;
  profile_stats1 : string;
  profile_stats2 : string
}.

(** The content of [performance_history.json]: no file, a file that
    [json.load] rejects, or the array of records.  [json.load] gives back
    the records [json.dump] wrote, so a well-formed file is modelled by
    the records it encodes. *)
Inductive HistoryFile :=
  | NoFile
  | Malformed
  | Stored (history : list ProfileData).

(** ** The world *)

Inductive Event :=
  | EvTracemallocStart
  | EvSpecFromFile (path : string)
  | EvRegisterModule (name : string)
  | EvExecModule (path : string)
  | EvProfilerEnable
  | EvStartTime
  | EvCall (name : string)
  | EvEndTime
  | EvProfilerDisable
  | EvGetTracedMemory
  | EvTracemallocStop
  | EvPrintStats.

Record World := {
  files : gmap string SourceFile;
  sys_modules : gmap string PyModule;
  tracing : bool;
  profiling : bool;
  history_file : HistoryFile;
  plots : gmap string (list (string * Q * Q));
  events : list Event
}.

Definition set_sys_modules (f : gmap string PyModule → gmap string PyModule) (w : World) : World :=
  {| files := files w; sys_modules := f (sys_modules w); tracing := tracing w;
     profiling := profiling w; history_file := history_file w;
     plots := plots w; events := events w |}.
Definition set_tracing (b : bool) (w : World) : World :=
  {| files := files w; sys_modules := sys_modules w; tracing := b;
     profiling := profiling w; history_file := history_file w;
     plots := plots w; events := events w |}.
Definition set_profiling (b : bool) (w : World) : World :=
  {| files := files w; sys_modules := sys_modules w; tracing := tracing w;
     profiling := b; history_file := history_file w;
     plots := plots w; events := events w |}.
Definition set_history_file (h : HistoryFile) (w : World) : World :=
  {| files := files w; sys_modules := sys_modules w; tracing := tracing w;
     profiling := profiling w; history_file := h;
     plots := plots w; events := events w |}.
Definition set_plots (f : gmap string (list (string * Q * Q)) → gmap string (list (string * Q * Q)))
    (w : World) : World :=
  {| files := files w; sys_modules := sys_modules w; tracing := tracing w;
     profiling := profiling w; history_file := history_file w;
     plots := f (plots w); events := events w |}.
Definition log (e : Event) (w : World) : World :=
  {| files := files w; sys_modules := sys_modules w; tracing := tracing w;
     profiling := profiling w; history_file := history_file w;
     plots := plots w; events := events w ++ [e] |}.

(** ** The monad: state, and Python exceptions *)

Inductive Result (A : Type) :=
  | Return (a : A)
  | Raise (e : PyExn).
Arguments Return {A} a.
Arguments Raise {A} e.

Definition M (A : Type) : Type := World → Result A * World.

Definition ret {A} (a : A) : M A := fun w => (Return a, w).
Definition raise {A} (e : PyExn) : M A := fun w => (Raise e, w).
Definition bind {A B} (m : M A) (k : A → M B) : M B :=
  fun w => match m w with
           | (Return a, w') => k a w'
           | (Raise e, w') => (Raise e, w')
           end.
Definition modify (f : World → World) : M unit := fun w => (Return tt, f w).
Definition get {A} (f : World → A) : M A := fun w => (Return (f w), w).

(** [try: body  except Exception as e: handler(e)] *)
Definition try_except {A} (body : M A) (handler : PyExn → M A) : M A :=
  fun w => match body w with
           | (Return a, w') => (Return a, w')
           | (Raise e, w') =>
               if is_Exception (exn_class e) then handler e w' else (Raise e, w')
           end.

Notation "'let!' x ':=' m 'in' k" := (bind m (fun x => k))
  (at level 10, x name, m at level 100, k at level 200).
Notation "m ';;;' k" := (bind m (fun _ => k))
  (at level 100, k at level 200, right associativity).

(** ** The dynamic loader ([importlib.util]) *)

(** The suffixes [importlib] has a file loader for, on a posix platform:
    extension modules, source, bytecode. *)
Definition loader_suffixes : list string := [".so"; ".py"; ".pyc"].

Definition has_loader (path : string) : bool :=
  existsb (Str.endswith path) loader_suffixes.

(** The loaders of [importlib], and the one the suffix of a path
    selects: the suffixes are tried in the order above. *)
Inductive Loader := ExtensionFileLoader | SourceFileLoader | SourcelessFileLoader.

Definition loader_of (path : string) : Loader :=
  if Str.endswith path ".so" then ExtensionFileLoader
  else if Str.endswith path ".py" then SourceFileLoader
  else SourcelessFileLoader.

Record ModuleSpec := { loader : Loader; origin : string }.

(** [importlib.util.spec_from_file_location(name, path)]: a spec with the
    loader for the path's suffix, [None] when no loader is known for the
    path.  The file is not opened yet. *)
Definition spec_from_file_location (name path : string) : M (option ModuleSpec) :=
  modify (log (EvSpecFromFile path)) ;;;
  ret (if has_loader path
       then Some {| loader := loader_of path; origin := path |}
       else None).

(** What the code of a file does to [sys.modules] besides its own module:
    the modules it imports are added, those already there are kept. *)
Definition add_imported (f : SourceFile) (mods : gmap string PyModule) :
    gmap string PyModule :=
  mods ∪ imported f.

(** [importlib.util.module_from_spec(spec)]; [spec.loader] fails on
    [None].  The source and bytecode loaders give a new, empty module and
    do not open the file.  The extension loader creates the module from
    the shared object: it raises [ImportError] when the file cannot be
    opened, and otherwise runs the module's initialisation, which makes
    its bindings or raises.  (A module with multi-phase initialisation
    runs part of it in [exec_module]; the claims below say nothing that
    depends on where an extension module's initialisation raises.) *)
Definition module_from_spec (spec : option ModuleSpec) : M PyModule :=
  match spec with
  | None => raise (mkExn AttributeError "'NoneType' object has no attribute 'loader'")
  | Some sp =>
      match loader sp with
      | ExtensionFileLoader =>
          let! fs := get files in
          match fs !! origin sp with
          | None =>
              raise (mkExn ImportError
                       (origin sp +:+
                        ": cannot open shared object file: No such file or directory"))
          | Some f =>
              modify (set_sys_modules (add_imported f)) ;;;
              match top_level_raises f with
              | Some e => raise e
              | None => ret (top_level f)
              end
          end
      | _ => ret []
      end
  end.

(** [spec.loader.exec_module(module)], for the module object registered
    as [sys.modules[name]].  The source and bytecode loaders run the file's
    top-level code in the module's namespace; the bindings and imports
    made before an exception stay.  An extension module was initialised
    when it was created. *)
Definition exec_module (spec : option ModuleSpec) (name : string) : M unit :=
  match spec with
  | None => raise (mkExn AttributeError "'NoneType' object has no attribute 'loader'")
  | Some sp =>
      modify (log (EvExecModule (origin sp))) ;;;
      match loader sp with
      | ExtensionFileLoader => ret tt
      | _ =>
          let! fs := get files in
          match fs !! origin sp with
          | None =>
              raise (mkExn FileNotFoundError
                       ("[Errno 2] No such file or directory: '" +:+ origin sp +:+ "'"))
          | Some f =>
              modify (set_sys_modules (λ mods, <[name := top_level f]> (add_imported f mods))) ;;;
              match top_level_raises f with
              | Some e => raise e
              | None => ret tt
              end
          end
      end
  end.

(** ** Test discovery and execution *)

(** [test_func()] *)
Definition call (name : string) (a : Attr) : M PyVal :=
  match a with
  | Callable (Returns v) => modify (log (EvCall name)) ;;; ret v
  | Callable (Raises e) => modify (log (EvCall name)) ;;; raise e
  | NotCallable ty => raise (mkExn TypeError ("'" +:+ ty +:+ "' object is not callable"))
  end.

(** The body of the loop [for name in dir(test_module)], lines 48-54. *)
Definition run_test (test_module : PyModule) (name : string)
    (test_output : list string) : M (list string) :=
  if Str.startswith name "test_" then
    match getattr test_module name with
    | None =>
        raise (mkExn AttributeError
                 ("module 'test_module' has no attribute '" +:+ name +:+ "'"))
    | Some test_func =>
        try_except
          (call name test_func ;;;
           ret (test_output ++ ["Test " +:+ name +:+ " passed"]))
          (fun e =>
             ret (test_output ++ ["Test " +:+ name +:+ " failed: " +:+ exn_str e]))
    end
  else ret test_output.

(** The loop of lines 47-54 over the names still to visit. *)
Fixpoint run_tests (test_module : PyModule) (names : list string)
    (test_output : list string) : M (list string) :=
  match names with
  | [] => ret test_output
  | name :: rest =>
      let! test_output' := run_test test_module name test_output in
      run_tests test_module rest test_output'
  end.

(** Lines 44-54 without the clock: [test_output = []] and the loop over
    [dir(test_module)]. *)
Definition execute (test_module : PyModule) : M (list string) :=
  run_tests test_module (dir test_module) [].

(** ** The instrumentation session *)

(** What the clock and the instruments report during one run. *)
Record Readings := {
  start_time : Q;
  end_time : Q;
  traced_current : Z;
  traced_peak : Z;
  stats_text : string;
  now_isoformat : string
}.

Definition tracemalloc_start : M unit :=
  modify (log EvTracemallocStart) ;;; modify (set_tracing true).
Definition tracemalloc_stop : M unit :=
  modify (log EvTracemallocStop) ;;; modify (set_tracing false).
Definition tracemalloc_get_traced_memory (rd : Readings) : M (Z * Z) :=
  modify (log EvGetTracedMemory) ;;; ret (traced_current rd, traced_peak rd).
(** [pr.enable()] on a fresh profiler; that another profiler may be
    active is not looked at. *)
Definition profiler_enable : M unit :=
  modify (log EvProfilerEnable) ;;; modify (set_profiling true).
Definition profiler_disable : M unit :=
  modify (log EvProfilerDisable) ;;; modify (set_profiling false).

Definition run_test_with_profiling (test_file : string) (rd : Readings) : M ProfileData :=
  tracemalloc_start ;;;
  let! spec := spec_from_file_location "test_module" test_file in
  let! fresh := module_from_spec spec in
  modify (set_sys_modules (<["test_module" := fresh]>)) ;;;
  modify (log (EvRegisterModule "test_module")) ;;;
  exec_module spec "test_module" ;;;
  let! mods := get sys_modules in
  let test_module := default [] (mods !! "test_module") in
  profiler_enable ;;;
  modify (log EvStartTime) ;;;
  let! test_output := execute test_module in
  modify (log EvEndTime) ;;;
  profiler_disable ;;;
  let! mem := tracemalloc_get_traced_memory rd in
  tracemalloc_stop ;;;
  modify (log EvPrintStats) ;;;
  ret {| profile_stats := stats_text rd;
         test_file := test_file;
         test_output := Str.join Str.nl test_output;
         timestamp := now_isoformat rd;
         execution_time := (end_time rd - start_time rd)%Q;
         memory_usage := {| current := (inject_Z mem.1 / 1024 / 1024)%Q;
                            peak := (inject_Z mem.2 / 1024 / 1024)%Q |} |}.

(** ** The history store ([performance_history.json]) *)

(** [json.load(f)] on the history file, once it is known to exist. *)
Definition load_history : M (list ProfileData) :=
  let! hf := get history_file in
  match hf with
  | Stored history => ret history
  | NoFile =>
      raise (mkExn FileNotFoundError
               "[Errno 2] No such file or directory: 'performance_history.json'")
  | Malformed => raise (mkExn JSONDecodeError "Expecting value: line 1 column 1 (char 0)")
  end.

Definition history_file_exists : M bool :=
  let! hf := get history_file in
  ret (match hf with NoFile => false | _ => true end).

Definition save_to_history (profile_data : ProfileData) : M unit :=
  let! ex := history_file_exists in
  let! history := (if ex then load_history else ret []) in
  let history := history ++ [profile_data] in
  modify (set_history_file (Stored history)).

(** Line 177: [[h for h in history if h['test_file'] == test_file]]. *)
Definition test_history (history : list ProfileData) (file : string) : list ProfileData :=
  filter (λ h, test_file h = file) history.

(** Lines 210-211: the name of the plot file. *)
Definition plot_file (file : string) : string :=
  let safe_filename :=
    Str.replace_char "/"%char "_"%char
      (Str.replace_char "\"%char "_"%char (Str.basename file)) in
  "performance_history_" +:+ safe_filename +:+ ".png".

(** Lines 183-190: the timestamps, execution times and memory peaks of
    the selected entries. *)
Definition plotted_series (selected : list ProfileData) : list (string * Q * Q) :=
  map (λ entry, (timestamp entry, execution_time entry, peak (memory_usage entry))) selected.

Section Plot.

(** Whether [datetime.fromisoformat] accepts a text. *)
Variable is_isoformat : string → bool.

(** The plot itself is kept as the series handed to the plotting library,
    stored under the name of the image written.  The loop of lines 187-190
    parses the timestamp of each selected entry in turn, and nothing is
    written before it ends. *)
Definition plot_performance_history (file : string) : M string :=
  let! ex := history_file_exists in
  if negb ex then ret "No history data available"
  else
    let! history := load_history in
    let selected := test_history history file in
    match selected with
    | [] => ret "No history data available for this test file"
    | _ =>
        match List.find (λ entry, negb (is_isoformat (timestamp entry))) selected with
        | Some entry =>
            raise (mkExn ValueError
                     ("Invalid isoformat string: '" +:+ timestamp entry +:+ "'"))
        | None =>
            modify (set_plots (<[plot_file file := plotted_series selected]>)) ;;;
            ret ("Performance history plot saved to " +:+ plot_file file)
        end
    end.

End Plot.

(** ** Test status (line 333 of [_format_profiling_results]) *)

Definition test_status (profile_data : ProfileData) : string :=
  if negb (Str.contains "failed" (Str.lower (test_output profile_data)))
  then "PASSED" else "FAILED".

(** ** The analysis collaborator ([requests]) *)

(** The response object of [requests.post]: its status, the message
    [raise_for_status] would raise with, and what [json()] gives: a
    decoding error, or the object's fields. *)
Record Response := {
  status_code : Z;
  http_error_msg : string;
  json : string + gmap string string
}.

(** What the endpoint does with one request: the call raises a
    [RequestException] (connection refused, timeout, ...), or returns. *)
Inductive HttpOutcome :=
  | PostRaises (msg : string)
  | PostReturns (r : Response).

Definition requests_post (prompt : string) (http : HttpOutcome) : M Response :=
  match http with
  | PostRaises msg => raise (mkExn RequestException msg)
  | PostReturns r => ret r
  end.

(** [response.raise_for_status()]: raises on 4xx and 5xx. *)
Definition raise_for_status (r : Response) : M unit :=
  if ((400 <=? status_code r) && (status_code r <? 600))%Z
  then raise (mkExn HTTPError (http_error_msg r))
  else ret tt.

(** [response.json()["response"]] *)
Definition json_response (r : Response) : M string :=
  match json r with
  | inl msg => raise (mkExn JSONDecodeError msg)
  | inr obj =>
      match obj !! "response" with
      | Some s => ret s
      | None => raise (mkExn KeyError "'response'")
      end
  end.

(** The body of the [try] of lines 143-152 and 282-290. *)
Definition generate (prompt : string) (http : HttpOutcome) : M string :=
  let! response := requests_post prompt http in
  raise_for_status response ;;;
  json_response response.

(** [open(path, 'r').read()] *)
Definition read_file (path : string) : M string :=
  let! fs := get files in
  match fs !! path with
  | Some f =>
      match text f with
      | Some t => ret t
      | None =>
          raise (mkExn UnicodeDecodeError
                   "'utf-8' codec can't decode byte 0xa7 in position 0: invalid start byte")
      end
  | None =>
      raise (mkExn FileNotFoundError
               ("[Errno 2] No such file or directory: '" +:+ path +:+ "'"))
  end.

(** The two dictionaries the program passes as [profile_data]. *)
Inductive ProfileDict :=
  | Single (pd : ProfileData)
  | Comparative (cd : ComparativeData).

Definition single_key (d : ProfileDict) (key : string) : M ProfileData :=
  match d with
  | Single pd => ret pd
  | Comparative _ => raise (mkExn KeyError ("'" +:+ key +:+ "'"))
  end.
Definition comparative_key (d : ProfileDict) (key : string) : M ComparativeData :=
  match d with
  | Comparative cd => ret cd
  | Single _ => raise (mkExn KeyError ("'" +:+ key +:+ "'"))
  end.

(** ** Analysis, comparison and the single-file path *)

Record ComparisonResult := {
  implementation1 : ProfileData;
  implementation2 : ProfileData;
  comparative_analysis : string
}.

Record PatternResult := {
  pattern_profile_data : ProfileData;
  pattern_analysis : string
}.

Record AnalysisResult := {
  result_profile_data : ProfileData;
  formatted_profile : string;
  optimization_suggestions : string
}.

Section Analyzer.

(** Python's [f"{x:.2f}"] on a float. *)
Variable format_2f : Q → string.

(** Lines 83-99. *)
Definition prompt_comparative (cd : ComparativeData) : string :=
  "
            Compare the following two test implementations and provide insights:
            
            Test File 1: " +:+
  test_file1 cd +:+
  "
            Profiling Data 1:
            " +:+
  profile_stats1 cd +:+
  "
            
            Test File 2: " +:+
  test_file2 cd +:+
  "
            Profiling Data 2:
            " +:+
  profile_stats2 cd +:+
  "
            
            Please provide:
            1. Performance comparison
            2. Key differences in implementation
            3. Recommendations for best approach
            4. Potential hybrid solutions
            ".

(** Lines 101-114. *)
Definition prompt_pattern (pd : ProfileData) : string :=
  "
            Analyze the following test code for patterns and best practices:
            
            Test File: " +:+
  test_file pd +:+
  "
            Test Output: " +:+
  test_output pd +:+
  "
            Profiling Data:
            " +:+
  profile_stats pd +:+
  "
            
            Please identify:
            1. Test patterns used
            2. Potential anti-patterns
            3. Best practice recommendations
            4. Industry standard comparisons
            ".

(** Lines 120-140. *)
Definition prompt_standard (original_code : string) (pd : ProfileData) : string :=
  "
            Analyze this code and provide a concise optimization:
            
            Original Code:
            " +:+
  original_code +:+
  "
            
            Profiling Results:
            Time: " +:+
  format_2f (execution_time pd) +:+
  "s
            Memory: " +:+
  format_2f (peak (memory_usage pd)) +:+
  "MB
            
            Provide a SHORT response in this exact format:
            
            === Problems ===
            - [List each problem on a new line with hyphen]
            
            === Optimizations ===
            - [List each optimization on a new line with hyphen]
            
            === Optimized Code ===
            [Complete optimized code here]
            ".

(** Lines 245-279 of [analyze_test_patterns]. *)
Definition prompt_test_patterns (test_code : string) (pd : ProfileData) : string :=
  "
        Analyze this test code and provide specific insights:

        Test Code:
        " +:+
  test_code +:+
  "

        Profiling Data:
        " +:+
  profile_stats pd +:+
  "

        Provide a structured analysis in this format:

        === Test Structure Analysis ===
        - Test framework used
        - Number of test cases
        - Test case organization
        - Setup/teardown patterns

        === Test Quality Indicators ===
        - Test independence
        - Assertion patterns
        - Test coverage
        - Edge case handling

        === Performance Patterns ===
        - Time complexity patterns
        - Memory usage patterns
        - Resource management
        - Potential bottlenecks

        === Recommendations ===
        - Specific improvements
        - Best practice suggestions
        - Optimization opportunities
        - Test coverage gaps
        ".

(** Lines 82-140 of [analyze_with_llm]: the prompt for the analysis
    type, from the keys of [profile_data] it reads. *)
Definition build_prompt (profile_data : ProfileDict) (analysis_type : string) : M string :=
  if decide (analysis_type = "comparative") then
    let! cd := comparative_key profile_data "test_file1" in
    ret (prompt_comparative cd)
  else if decide (analysis_type = "pattern") then
    let! pd := single_key profile_data "test_file" in
    ret (prompt_pattern pd)
  else
    let! pd := single_key profile_data "test_file" in
    let! original_code := read_file (test_file pd) in
    ret (prompt_standard original_code pd).

Definition analyze_with_llm (profile_data : ProfileDict) (analysis_type : string)
    (http : HttpOutcome) : M string :=
  let! prompt := build_prompt profile_data analysis_type in
  try_except
    (generate prompt http)
    (fun e => ret ("Error analyzing with LLM: " +:+ exn_str e)).

Definition compare_implementations (test_file1 test_file2 : string)
    (rd1 rd2 : Readings) (http : HttpOutcome) : M ComparisonResult :=
  let! profile1 := run_test_with_profiling test_file1 rd1 in
  let! profile2 := run_test_with_profiling test_file2 rd2 in
  let comparative_data :=
    {| test_file1 := test_file1;
       test_file2 := test_file2;
       profile_stats1 := profile_stats profile1;
       profile_stats2 := profile_stats profile2 |} in
  let! analysis := analyze_with_llm (Comparative comparative_data) "comparative" http in
  ret {| implementation1 := profile1;
         implementation2 := profile2;
         comparative_analysis := analysis |}.

Definition analyze_test_patterns (test_file : string) (rd : Readings)
    (http : HttpOutcome) : M PatternResult :=
  let! profile_data := run_test_with_profiling test_file rd in
  let! test_code := read_file test_file in
  let prompt := prompt_test_patterns test_code profile_data in
  try_except
    (let! response := generate prompt http in
     ret {| pattern_profile_data := profile_data;
            pattern_analysis := response |})
    (fun e =>
       ret {| pattern_profile_data := profile_data;
              pattern_analysis := "Error analyzing test patterns: " +:+ exn_str e |}).

Definition _format_profiling_results (profile_data : ProfileData) : string :=
  Str.join Str.nl
    [ "=== Quick Profiling Summary ===";
      "Execution Time: " +:+ format_2f (execution_time profile_data) +:+
        "s | Memory: " +:+ format_2f (peak (memory_usage profile_data)) +:+ "MB peak";
      "Test Status: " +:+ test_status profile_data ].

Definition analyze_test_code (test_file : string) (save_history : bool)
    (rd : Readings) (http : HttpOutcome) : M AnalysisResult :=
  let! fs := get files in
  if negb (bool_decide (is_Some (fs !! test_file))) then
    raise (mkExn FileNotFoundError ("Test file " +:+ test_file +:+ " not found"))
  else
    let! profile_data := run_test_with_profiling test_file rd in
    (if save_history then save_to_history profile_data else ret tt) ;;;
    let! analysis := analyze_with_llm (Single profile_data) "standard" http in
    let formatted_profile := _format_profiling_results profile_data in
    ret {| result_profile_data := profile_data;
           formatted_profile := formatted_profile;
           optimization_suggestions := analysis |}.

End Analyzer.

(** ** The specification's vocabulary

    The specification speaks of outcomes [(name, status, detail)] and of a
    derived overall status; the program keeps one line of text per test.
    [outcome_line] is the line the program writes for an outcome, and the
    [spec_] definitions follow the specification's words, to be compared
    with the program. *)

Inductive Status := passed | failed.

Definition TestOutcome : Type := string * Status * option string.

Definition outcome_line (o : TestOutcome) : string :=
  match o with
  | (name, passed, _) => "Test " +:+ name +:+ " passed"
  | (name, failed, detail) => "Test " +:+ name +:+ " failed: " +:+ default "" detail
  end.

(** The outcome the specification gives a test: [passed] when the call
    returns, [failed] with the exception's message when it raises. *)
Definition spec_outcome (name : string) (a : Attr) : TestOutcome :=
  match a with
  | Callable (Returns _) => (name, passed, None)
  | Callable (Raises e) => (name, failed, Some (exn_str e))
  | NotCallable ty => (name, failed, Some ("'" +:+ ty +:+ "' object is not callable"))
  end.

(** [failed] if any outcome is [failed], else [passed]. *)
Definition spec_overall_status (outcomes : list TestOutcome) : Status :=
  if existsb (λ o, match o.1.2 with failed => true | passed => false end) outcomes
  then failed else passed.

Definition status_text (s : Status) : string :=
  match s with passed => "PASSED" | failed => "FAILED" end.

(** The step order of section 4.2, for a session whose work does
    [work]: both instruments started, the clock read, the work, the clock
    read, the profiler stopped and its statistics extracted, the traced
    memory read and the tracer stopped. *)
Definition spec_session_events (work : list Event) : list Event :=
  [EvTracemallocStart; EvProfilerEnable; EvStartTime] ++
  work ++
  [EvEndTime; EvProfilerDisable; EvPrintStats; EvGetTracedMemory; EvTracemallocStop].

(** ** Derived notions used in the statements *)

(** The names the loop runs: those of [dir] with the prefix. *)
Definition test_names (m : PyModule) : list string :=
  filter (λ name, Str.startswith name "test_" = true) (dir m).

Definition attr_of (m : PyModule) (name : string) : Attr :=
  default (NotCallable "NoneType") (getattr m name).

(** A test whose exception [except Exception] does not catch. *)
Definition escapes (a : Attr) : bool :=
  match a with
  | Callable (Raises e) => negb (is_Exception (exn_class e))
  | _ => false
  end.

Definition is_callable (a : Attr) : bool :=
  match a with Callable _ => true | NotCallable _ => false end.

(** The names whose attribute is really invoked. *)
Definition invoked (m : PyModule) (names : list string) : list string :=
  filter (λ name, is_callable (attr_of m name) = true) names.

Definition log_all (evs : list Event) (w : World) : World :=
  {| files := files w; sys_modules := sys_modules w; tracing := tracing w;
     profiling := profiling w; history_file := history_file w;
     plots := plots w; events := events w ++ evs |}.

(** The history as [save_to_history] reads it. *)
Definition stored_history (w : World) : list ProfileData :=
  match history_file w with Stored h => h | _ => [] end.

(** [save_to_history] called once per record, in order. *)
Fixpoint save_each (records : list ProfileData) : M unit :=
  match records with
  | [] => ret tt
  | r :: rest => save_to_history r ;;; save_each rest
  end.

(** Whether the extension loader is the one selected for a path. *)
Definition is_extension (file : string) : bool :=
  match loader_of file with ExtensionFileLoader => true | _ => false end.

(** [sys.modules] after the file [f] has been loaded as [test_module]. *)
Definition loaded_modules (f : SourceFile) (w : World) : gmap string PyModule :=
  <["test_module" := top_level f]> (add_imported f (sys_modules w)).

(** The world [w] with the module table, the instruments and the new
    events replaced. *)
Definition session_world (w : World) (mods : gmap string PyModule)
    (tr pr : bool) (evs : list Event) : World :=
  {| files := files w; sys_modules := mods; tracing := tr; profiling := pr;
     history_file := history_file w; plots := plots w;
     events := events w ++ evs |}.

(** The record built at lines 68-78. *)
Definition build_record (file : string) (rd : Readings) (out : list string) : ProfileData :=
  {| profile_stats := stats_text rd;
     test_file := file;
     test_output := Str.join Str.nl out;
     timestamp := now_isoformat rd;
     execution_time := (end_time rd - start_time rd)%Q;
     memory_usage := {| current := (inject_Z (traced_current rd) / 1024 / 1024)%Q;
                        peak := (inject_Z (traced_peak rd) / 1024 / 1024)%Q |} |}.

Definition loading_events (file : string) : list Event :=
  [EvTracemallocStart; EvSpecFromFile file; EvRegisterModule "test_module";
   EvExecModule file].

Definition closing_events : list Event :=
  [EvEndTime; EvProfilerDisable; EvGetTracedMemory; EvTracemallocStop; EvPrintStats].

(** The line the program writes for the test [name] of [m]. *)
Definition line_of (m : PyModule) (name : string) : string :=
  outcome_line (spec_outcome name (attr_of m name)).

Definition no_escape (m : PyModule) : Prop :=
  ∀ name, name ∈ test_names m → escapes (attr_of m name) = false.

(** ** Sample units and worlds *)

Definition sample_readings : Readings :=
  {| start_time := 10; end_time := 12;
     traced_current := 1048576; traced_peak := 2097152;
     stats_text := "3 function calls in 0.000 seconds";
     now_isoformat := "2024-05-01T12:00:00" |}.

(** [def test_ok(): return None], then
    [def test_fail(): raise AssertionError("x")]. *)
Definition ok_fail_module : PyModule :=
  [ ("test_ok", Callable (Returns PyNone));
    ("test_fail", Callable (Raises (mkExn AssertionError "x"))) ].

(** A test that ends in [sys.exit(0)], before another test. *)
Definition exit_module : PyModule :=
  [ ("test_a", Callable (Raises (mkExn SystemExit "0")));
    ("test_b", Callable (Returns PyNone)) ].

(** [test_data = [1, 2, 3]] next to one test function. *)
Definition data_module : PyModule :=
  [ ("test_data", NotCallable "list");
    ("test_one", Callable (Returns (PyInt 1))) ].

(** A passing test whose name contains the word looked for in the output. *)
Definition failed_login_module : PyModule :=
  [ ("test_failed_login", Callable (Returns PyNone)) ].

Definition source_of (m : PyModule) : SourceFile :=
  {| text := Some "# test file"; top_level := m; top_level_raises := None;
     imported := ∅ |}.

(** A compiled file holding [m]: it loads, but does not decode as text. *)
Definition bytecode_of (m : PyModule) : SourceFile :=
  {| text := None; top_level := m; top_level_raises := None; imported := ∅ |}.

Definition world_of (fs : gmap string SourceFile) : World :=
  {| files := fs; sys_modules := ∅; tracing := false; profiling := false;
     history_file := NoFile; plots := ∅; events := [] |}.

(** One test file on disk, nothing loaded, no instrument active, no
    history. *)
Definition sample_world : World :=
  world_of {[ "a.py" := source_of ok_fail_module ]}.

Definition sample_record : ProfileData :=
  build_record "a.py" sample_readings ["Test test_ok passed"].

(** A second test file, for the comparisons. *)
Definition two_file_world : World :=
  world_of {[ "a.py" := source_of ok_fail_module; "b.py" := source_of data_module ]}.

Definition record_for (file stamp : string) : ProfileData :=
  {| profile_stats := "stats"; test_file := file; test_output := "Test test_ok passed";
     timestamp := stamp; execution_time := 1;
     memory_usage := {| current := 1; peak := 2 |} |}.

(** A world whose history already holds one record of another file. *)
Definition history_world : World :=
  set_history_file (Stored [record_for "b.py" "2024-05-01T09:00:00"]) sample_world.

(** ** The constructor and the command line ([__init__], [main]) *)

(** [CodeAnalyzer.__init__]: the settings, from the environment as
    [load_dotenv] leaves it. *)
Record Config := {
  ollama_url : string;
  ollama_model : string;
  profiling_timeout : Z;
  config_history_file : string
}.

(** [os.getenv(key, fallback)] *)
Definition getenv (environ : gmap string string) (key fallback : string) : string :=
  default fallback (environ !! key).

Section Constructor.

(** Python's [int(s)] on a string: the number, or [None] where it raises
    [ValueError]. *)
Variable py_int : string → option Z.

Definition CodeAnalyzer_init (environ : gmap string string) : Result Config :=
  let url := getenv environ "OLLAMA_URL" "http://localhost:11434/api/generate" in
  let model := getenv environ "OLLAMA_MODEL" "dolphin3" in
  let timeout_text := getenv environ "PROFILING_TIMEOUT" "30" in
  match py_int timeout_text with
  | None =>
      Raise (mkExn ValueError
               ("invalid literal for int() with base 10: '" +:+ timeout_text +:+ "'"))
  | Some t =>
      Return {| ollama_url := url; ollama_model := model; profiling_timeout := t;
                config_history_file := "performance_history.json" |}
  end.

End Constructor.

(** The arguments as [argparse] hands them to [main]. *)
Record Args := {
  arg_test_file : string;
  arg_output : option string;
  arg_verbose : bool;
  arg_timeout : Z;
  arg_compare : option string;
  arg_history : bool;
  arg_patterns : bool
}.

(** Truth value of an optional string: [None] and [""] are false. *)
Definition truthy (o : option string) : bool :=
  match o with
  | Some s => negb (String.eqb s "")
  | None => false
  end.

(** What [main] holds in [results]. *)
Inductive Results :=
  | ResCompare (r : ComparisonResult)
  | ResPatterns (r : PatternResult)
  | ResAnalysis (r : AnalysisResult).

(** The process [main] runs in: the world of the analyzer, what has been
    printed (one entry for each [print]), and the result files written
    with [json.dump], kept under the path as given and as the results they
    encode.  A result file written over a file of the world (the history
    file, a plot, a test file) shows in [outputs] only: the history file
    has no shape for a results object.  What is proved of such a file
    after [main] is proved for an output path that does not name it, see
    [may_name]. *)
Record Process := {
  world : World;
  stdout : list string;
  outputs : gmap string Results
}.

Definition N (A : Type) : Type := Process → Result A * Process.

Definition retN {A} (a : A) : N A := fun p => (Return a, p).
Definition raiseN {A} (e : PyExn) : N A := fun p => (Raise e, p).
Definition bindN {A B} (m : N A) (k : A → N B) : N B :=
  fun p => match m p with
           | (Return a, p') => k a p'
           | (Raise e, p') => (Raise e, p')
           end.

(** A method of the analyzer, run on the process's world. *)
Definition lift {A} (m : M A) : N A :=
  fun p => match m (world p) with
           | (r, w') => (r, {| world := w'; stdout := stdout p; outputs := outputs p |})
           end.

(** [print(line)] *)
Definition print (line : string) : N unit :=
  fun p => (Return tt, {| world := world p; stdout := stdout p ++ [line];
                          outputs := outputs p |}).

(** [try: body  except Exception as e: handler(e)], in [main]. *)
Definition try_exceptN {A} (body : N A) (handler : PyExn → N A) : N A :=
  fun p => match body p with
           | (Return a, p') => (Return a, p')
           | (Raise e, p') =>
               if is_Exception (exn_class e) then handler e p' else (Raise e, p')
           end.

Notation "'do!' x ':=' m 'in' k" := (bindN m (fun x => k))
  (at level 10, x name, m at level 100, k at level 200).
Notation "m ';;!' k" := (bindN m (fun _ => k))
  (at level 100, k at level 200, right associativity).

(** What [main] takes from outside: the environment variables, the
    library functions the model leaves open, the readings of the (at most
    two) profiling runs, the answer of the analysis endpoint to the one
    request made, and, for a path, the message of the [OSError] that
    opening it for writing raises, if it does. *)
Record Env := {
  environ : gmap string string;
  env_py_int : string → option Z;
  env_format_2f : Q → string;
  env_is_isoformat : string → bool;
  readings1 : Readings;
  readings2 : Readings;
  endpoint : HttpOutcome;
  open_error : string → option string
}.

(** Lines 389-392: [with open(args.output, 'w') as f: json.dump(results, f)]. *)
Definition write_results (path : string) (results : Results) (env : Env) : N unit :=
  match open_error env path with
  | Some msg => raiseN (mkExn (OtherException "OSError") msg)
  | None =>
      fun p => (Return tt, {| world := world p; stdout := stdout p;
                              outputs := <[path := results]> (outputs p) |})
  end.

(** Lines 377-382: the analysis the arguments select. *)
Definition dispatch (args : Args) (env : Env) : N Results :=
  if truthy (arg_compare args) then
    do! r := lift (compare_implementations (env_format_2f env) (arg_test_file args)
                     (default "" (arg_compare args)) (readings1 env) (readings2 env)
                     (endpoint env)) in
    retN (ResCompare r)
  else if arg_patterns args then
    do! r := lift (analyze_test_patterns (arg_test_file args) (readings1 env)
                     (endpoint env)) in
    retN (ResPatterns r)
  else
    do! r := lift (analyze_test_code (env_format_2f env) (arg_test_file args) true
                     (readings1 env) (endpoint env)) in
    retN (ResAnalysis r).

(** [results[key]], for the keys [main] prints. *)
Definition results_key (results : Results) (key : string) : N string :=
  match results with
  | ResCompare r =>
      if String.eqb key "comparative_analysis" then retN (comparative_analysis r)
      else raiseN (mkExn KeyError ("'" +:+ key +:+ "'"))
  | ResPatterns r =>
      if String.eqb key "pattern_analysis" then retN (pattern_analysis r)
      else raiseN (mkExn KeyError ("'" +:+ key +:+ "'"))
  | ResAnalysis r =>
      if String.eqb key "formatted_profile" then retN (formatted_profile r)
      else if String.eqb key "optimization_suggestions"
      then retN (optimization_suggestions r)
      else raiseN (mkExn KeyError ("'" +:+ key +:+ "'"))
  end.

(** Lines 394-404: the results printed when no output file is asked for. *)
Definition print_results (args : Args) (results : Results) : N unit :=
  if truthy (arg_compare args) then
    print (Str.nl +:+ "=== Comparative Analysis ===") ;;!
    do! text := results_key results "comparative_analysis" in
    print text
  else if arg_patterns args then
    print (Str.nl +:+ "=== Pattern Analysis ===") ;;!
    do! text := results_key results "pattern_analysis" in
    print text
  else
    print (Str.nl +:+ "=== Quick Analysis ===") ;;!
    do! profile := results_key results "formatted_profile" in
    print profile ;;!
    print (Str.nl +:+ "=== Optimization Results ===") ;;!
    do! suggestions := results_key results "optimization_suggestions" in
    print suggestions.

(** [main], from the parsed arguments on; the value returned is the exit
    code.  The analyzer is constructed before the [try]. *)
Definition main (args : Args) (env : Env) : N Z :=
  match CodeAnalyzer_init (env_py_int env) (environ env) with
  | Raise e => raiseN e
  | Return analyzer =>
      try_exceptN
        ((if arg_verbose args then
            print ("Analyzing test file: " +:+ arg_test_file args) ;;!
            print "Running profiling..."
          else retN tt) ;;!
         do! results := dispatch args env in
         (if arg_history args then
            do! plot_result :=
              lift (plot_performance_history (env_is_isoformat env) (arg_test_file args)) in
            print (Str.nl +:+ plot_result)
          else retN tt) ;;!
         (if truthy (arg_output args) then
            write_results (default "" (arg_output args)) results env ;;!
            print ("Results saved to " +:+ default "" (arg_output args))
          else print_results args results) ;;!
         retN 0)
        (fun e => print ("Error: " +:+ exn_str e) ;;! retN 1)
  end.

(** A process that has printed and written nothing yet. *)
Definition start (w : World) : Process :=
  {| world := w; stdout := []; outputs := ∅ |}.

(** ** Derived notions for [main] *)

(** Lines 373-375: what [--verbose] prints first. *)
Definition greeting (args : Args) : list string :=
  if arg_verbose args
  then ["Analyzing test file: " +:+ arg_test_file args; "Running profiling..."]
  else [].

(** The process after printing [lines]. *)
Definition say (lines : list string) (p : Process) : Process :=
  {| world := world p; stdout := stdout p ++ lines; outputs := outputs p |}.

(** Lines 406-408: the handler of [main]. *)
Definition on_error (e : PyExn) (p : Process) : Result Z * Process :=
  if is_Exception (exn_class e)
  then (Return 1, say ["Error: " +:+ exn_str e] p)
  else (Raise e, p).

(** Lines 384-386. *)
Definition history_step (args : Args) (env : Env) : N unit :=
  if arg_history args then
    do! plot_result :=
      lift (plot_performance_history (env_is_isoformat env) (arg_test_file args)) in
    print (Str.nl +:+ plot_result)
  else retN tt.

(** Lines 389-404. *)
Definition output_step (args : Args) (env : Env) (results : Results) : N unit :=
  if truthy (arg_output args) then
    write_results (default "" (arg_output args)) results env ;;!
    print ("Results saved to " +:+ default "" (arg_output args))
  else print_results args results.

(** A step of [main] that leaves the history file as it was. *)
Definition keeps_history {A} (m : N A) : Prop :=
  ∀ p, history_file (world (m p).2) = history_file (world p).

(** Whether the path given to [--output] may be the file [name] of the
    working directory: it may, when its last component is [name], whatever
    directories come before it and whatever the case of its letters (a
    file system may ignore it).  Links to the file are not modelled. *)
Definition may_name (path name : string) : bool :=
  String.eqb (Str.lower (Str.basename path)) (Str.lower name).

(** A step of [main] that writes no result file but at [out]. *)
Definition writes_only {A} (out : string) (m : N A) : Prop :=
  ∀ p path, path ≠ out → outputs (m p).2 !! path = outputs p !! path.

(** ** More sample units and worlds *)

(** The shape of [tests/sample_test2.py]: three imported modules and a
    [unittest.TestCase] class; its test methods are attributes of the
    class, not of the module. *)
Definition unittest_style_module : PyModule :=
  [ ("unittest", NotCallable "module");
    ("time", NotCallable "module");
    ("random", NotCallable "module");
    ("TestStringProcessor", Callable (Returns (PyStr "<TestStringProcessor>"))) ].

(** Two passing tests. *)
Definition passing_module : PyModule :=
  [ ("test_b", Callable (Returns PyNone));
    ("helper", Callable (Returns (PyInt 3)));
    ("test_a", Callable (Returns (PyBool false))) ].

(** A test bound twice: first failing, then passing. *)
Definition rebound_module : PyModule :=
  [ ("test_x", Callable (Raises (mkExn AssertionError "old")));
    ("test_x", Callable (Returns PyNone)) ].

Definition malformed_world : World :=
  set_history_file Malformed sample_world.

Definition sample_env : Env :=
  {| environ := ∅;
     env_py_int := λ s, if String.eqb s "30" then Some 30 else None;
     env_format_2f := λ _, "0.00";
     env_is_isoformat := λ _, true;
     readings1 := sample_readings;
     readings2 := sample_readings;
     endpoint := PostRaises "Connection refused";
     open_error := λ _, None |}.

Definition sample_args : Args :=
  {| arg_test_file := "a.py"; arg_output := None; arg_verbose := false;
     arg_timeout := 30; arg_compare := None; arg_history := false;
     arg_patterns := false |}.

(** * Properties *)

(** ** Strings *)

Section StrFacts.

Lemma lower_app s t : Str.lower (s +:+ t) = Str.lower s +:+ Str.lower t.
Proof.
  induction s as [|c s IH]; [done|].
  change (String c s +:+ t) with (String c (s +:+ t)).
  cbn [Str.lower]. by rewrite IH.
Qed.

Lemma prefix_app p t : String.prefix p (p +:+ t) = true.
Proof.
  induction p as [|c p IH]; [by destruct t|].
  change (String c p +:+ t) with (String c (p +:+ t)).
  cbn [String.prefix]. destruct (ascii_dec c c); [done|congruence].
Qed.

Lemma prefix_app_l p s t :
  String.prefix p s = true → String.prefix p (s +:+ t) = true.
Proof.
  revert s. induction p as [|a p IH]; intros s H; [by destruct (s +:+ t)|].
  destruct s as [|b s]; [done|].
  change (String b s +:+ t) with (String b (s +:+ t)).
  cbn [String.prefix] in *. destruct (ascii_dec a b); [auto|done].
Qed.

Lemma contains_prefix needle s :
  String.prefix needle s = true → Str.contains needle s = true.
Proof. intros H. destruct s; cbn [Str.contains]; by rewrite H. Qed.

Lemma contains_app_r needle s t :
  Str.contains needle t = true → Str.contains needle (s +:+ t) = true.
Proof.
  intros H. induction s as [|c s IH]; [done|].
  change (String c s +:+ t) with (String c (s +:+ t)).
  cbn [Str.contains]. rewrite IH. apply orb_true_r.
Qed.

Lemma contains_app_l needle s t :
  Str.contains needle s = true → Str.contains needle (s +:+ t) = true.
Proof.
  induction s as [|c s IH].
  - destruct needle; [by destruct t|done].
  - change (String c s +:+ t) with (String c (s +:+ t)).
    cbn [Str.contains]. intros [H|H]%orb_true_iff.
    + apply orb_true_iff; left. by apply (prefix_app_l needle (String c s)).
    + rewrite (IH H). apply orb_true_r.
Qed.

Lemma contains_middle needle s t :
  Str.contains needle (s +:+ needle +:+ t) = true.
Proof.
  apply contains_app_r, contains_prefix, prefix_app.
Qed.

(** An element of a joined list is a substring of the result. *)
Lemma contains_join needle sep l x :
  x ∈ l → Str.contains needle x = true →
  Str.contains needle (Str.join sep l) = true.
Proof.
  intros Hx Hn. induction l as [|y l IH]; [by apply elem_of_nil in Hx|].
  destruct l as [|z l].
  - apply list_elem_of_singleton in Hx as ->. done.
  - cbn [Str.join]. apply elem_of_cons in Hx as [->|Hx].
    + by apply contains_app_l.
    + apply contains_app_r, contains_app_r. auto.
Qed.

End StrFacts.

(** ** Modules: [getattr] and [dir] *)

Section ModuleFacts.

Lemma getattr_is_Some (m : PyModule) name : name ∈ m.*1 → is_Some (getattr m name).
Proof.
  induction m as [|[n a] m IH]; cbn [getattr fmap list_fmap fst].
  - intros []%elem_of_nil.
  - intros [->|H]%elem_of_cons.
    + destruct (getattr m n); [eauto|]. rewrite decide_True by done. eauto.
    + destruct (IH H) as [a' ->]. eauto.
Qed.

Lemma elem_of_dir (m : PyModule) name : name ∈ dir m ↔ name ∈ m.*1.
Proof. unfold dir. by rewrite merge_sort_Permutation, elem_of_remove_dups. Qed.

Lemma NoDup_dir (m : PyModule) : NoDup (dir m).
Proof. unfold dir. rewrite merge_sort_Permutation. apply NoDup_remove_dups. Qed.

Lemma dir_sorted (m : PyModule) : StronglySorted String.le (dir m).
Proof. apply StronglySorted_merge_sort; apply _. Qed.

Lemma le_ne_ltb a b : String.le a b → a ≠ b → (a <? b)%string = true.
Proof.
  unfold String.le, String.leb, String.ltb. intros Hle Hne.
  destruct (a ?= b)%string eqn:E; [|done|done].
  by apply String.compare_eq_iff in E.
Qed.

(** A sorted list without repetition ascends strictly. *)
Lemma sorted_NoDup_strict (l : list string) :
  StronglySorted String.le l → NoDup l →
  StronglySorted (λ a b, (a <? b)%string = true) l.
Proof.
  induction 1 as [|x l Hs IH Hall]; intros Hnd; [constructor|].
  apply NoDup_cons in Hnd as [Hx Hnd]. constructor; [auto|].
  rewrite Forall_forall in Hall |- *. intros y Hy.
  apply le_ne_ltb; [auto|]. intros ->. done.
Qed.

Lemma StronglySorted_filter {A} (R : relation A) (P : A → Prop)
    `{∀ x, Decision (P x)} (l : list A) :
  StronglySorted R l → StronglySorted R (filter P l).
Proof.
  induction 1 as [|x l Hs IH Hall]; [constructor|].
  rewrite filter_cons. case_decide; [|done].
  constructor; [done|]. rewrite Forall_forall in Hall |- *.
  intros y [_ Hy]%list_elem_of_filter. auto.
Qed.

(** The loop visits the test names in strictly ascending order. *)
Lemma test_names_ascending (m : PyModule) :
  StronglySorted (λ a b, (a <? b)%string = true) (test_names m).
Proof.
  apply StronglySorted_filter, sorted_NoDup_strict;
    [apply dir_sorted | apply NoDup_dir].
Qed.

Lemma elem_of_test_names (m : PyModule) name :
  name ∈ test_names m ↔ name ∈ m.*1 ∧ Str.startswith name "test_" = true.
Proof. unfold test_names. rewrite list_elem_of_filter, elem_of_dir. tauto. Qed.

End ModuleFacts.

(** ** The test loop *)

Section TestLoop.

Lemma log_all_nil w : log_all [] w = w.
Proof. destruct w. unfold log_all. cbn. by rewrite app_nil_r. Qed.

Lemma log_all_log e evs w : log_all evs (log e w) = log_all (e :: evs) w.
Proof. unfold log_all, log. cbn. by rewrite <- app_assoc. Qed.

Lemma log_all_app evs1 evs2 w :
  log_all evs2 (log_all evs1 w) = log_all (evs1 ++ evs2) w.
Proof. unfold log_all. cbn. by rewrite <- app_assoc. Qed.

Lemma log_as_log_all e w : log e w = log_all [e] w.
Proof. done. Qed.

(** One iteration on a test whose exception, if any, is caught. *)
Lemma run_test_caught m name a acc w :
  Str.startswith name "test_" = true →
  getattr m name = Some a →
  escapes a = false →
  run_test m name acc w =
    (Return (acc ++ [outcome_line (spec_outcome name a)]),
     log_all (if is_callable a then [EvCall name] else []) w).
Proof.
  intros Hp Ha He. unfold run_test. rewrite Hp, Ha.
  destruct a as [[v|e]|ty]; cbn in *.
  - done.
  - unfold try_except, bind, modify, raise; cbn.
    apply negb_false_iff in He. by rewrite He.
  - by rewrite log_all_nil.
Qed.

(** One iteration on a test whose exception is not an [Exception]:
    it leaves the loop. *)
Lemma run_test_escapes m name a acc w :
  Str.startswith name "test_" = true →
  getattr m name = Some a →
  escapes a = true →
  ∃ e, a = Callable (Raises e) ∧
       run_test m name acc w = (Raise e, log (EvCall name) w).
Proof.
  intros Hp Ha He. unfold run_test. rewrite Hp, Ha.
  destruct a as [[v|e]|ty]; cbn in *; try done.
  exists e. split; [done|].
  unfold try_except, bind, modify, raise; cbn.
  apply negb_true_iff in He. by rewrite He.
Qed.

Lemma run_test_skip m name acc w :
  Str.startswith name "test_" = false → run_test m name acc w = (Return acc, w).
Proof. intros Hp. unfold run_test. by rewrite Hp. Qed.

Lemma attr_of_Some m name a : getattr m name = Some a → attr_of m name = a.
Proof. unfold attr_of. by intros ->. Qed.

(** The loop, when no test escapes: one line per test name, in the
    order of the names, and one call per callable. *)
Lemma run_tests_caught m names acc w :
  (∀ name, name ∈ names → Str.startswith name "test_" = true →
           is_Some (getattr m name) ∧ escapes (attr_of m name) = false) →
  run_tests m names acc w =
    (Return (acc ++ map (λ n, outcome_line (spec_outcome n (attr_of m n)))
                        (filter (λ n, Str.startswith n "test_" = true) names)),
     log_all (map EvCall
                (invoked m (filter (λ n, Str.startswith n "test_" = true) names))) w).
Proof.
  revert acc w. induction names as [|name names IH]; intros acc w H.
  - cbn. by rewrite app_nil_r, log_all_nil.
  - cbn [run_tests]. unfold bind. rewrite filter_cons.
    destruct (Str.startswith name "test_") eqn:Hp.
    + destruct (H name) as [[a Ha] He]; [left|done|].
      rewrite (attr_of_Some _ _ _ Ha) in He.
      rewrite (run_test_caught m name a acc w Hp Ha He).
      rewrite IH by (intros; apply H; [by right|done]).
      rewrite decide_True by done. unfold invoked. rewrite filter_cons.
      rewrite !(attr_of_Some _ _ _ Ha). cbn [map]. rewrite <- app_assoc. cbn [app].
      rewrite log_all_app.
      destruct (is_callable a);
        [rewrite decide_True by done | rewrite decide_False by done];
        cbn; by rewrite (attr_of_Some _ _ _ Ha).
    + rewrite (run_test_skip m name acc w Hp).
      rewrite IH by (intros; apply H; [by right|done]).
      by rewrite decide_False.
Qed.

(** If the loop returns, no test escaped. *)
Lemma run_tests_Return_inv m names acc w out w' :
  (∀ name, name ∈ names → is_Some (getattr m name)) →
  run_tests m names acc w = (Return out, w') →
  ∀ name, name ∈ names → Str.startswith name "test_" = true →
          escapes (attr_of m name) = false.
Proof.
  revert acc w. induction names as [|name names IH]; intros acc w Hdef Hrun n Hn Hp.
  - by apply elem_of_nil in Hn.
  - cbn [run_tests] in Hrun. unfold bind in Hrun.
    destruct (Hdef name) as [a Ha]; [left|].
    destruct (Str.startswith name "test_") eqn:Hpn.
    + destruct (escapes a) eqn:He.
      * destruct (run_test_escapes m name a acc w Hpn Ha He) as (e & _ & Hr).
        by rewrite Hr in Hrun.
      * rewrite (run_test_caught m name a acc w Hpn Ha He) in Hrun.
        apply elem_of_cons in Hn as [->|Hn].
        -- by rewrite (attr_of_Some _ _ _ Ha).
        -- eapply IH; [|exact Hrun|done|done]. intros; apply Hdef. by right.
    + rewrite (run_test_skip m name acc w Hpn) in Hrun.
      apply elem_of_cons in Hn as [->|Hn]; [congruence|].
      eapply IH; [|exact Hrun|done|done]. intros; apply Hdef. by right.
Qed.

(** Whatever the loop does, it only adds events to the world. *)
Lemma run_tests_frame m names acc w :
  ∃ evs, (run_tests m names acc w).2 = log_all evs w.
Proof.
  revert acc w. induction names as [|name names IH]; intros acc w.
  - exists []. cbn. by rewrite log_all_nil.
  - cbn [run_tests]. unfold bind.
    assert (∃ evs, (run_test m name acc w).2 = log_all evs w) as [evs1 H1].
    { unfold run_test. destruct (Str.startswith name "test_").
      - destruct (getattr m name) as [[[v|e]|ty]|]; cbn.
        + by exists [EvCall name].
        + unfold try_except, bind, modify, raise; cbn.
          exists [EvCall name]. by destruct (is_Exception (exn_class e)).
        + exists []. by rewrite log_all_nil.
        + exists []. by rewrite log_all_nil.
      - exists []. cbn. by rewrite log_all_nil. }
    destruct (run_test m name acc w) as [[acc'|e] w1]; cbn in H1; subst w1.
    + destruct (IH acc' (log_all evs1 w)) as [evs2 H2].
      exists (evs1 ++ evs2). by rewrite H2, log_all_app.
    + by exists evs1.
Qed.

End TestLoop.

(** ** The instrumentation session, step by step *)

Section Session.

Lemma session_world_log_all w mods tr pr evs evs' :
  log_all evs' (session_world w mods tr pr evs) = session_world w mods tr pr (evs ++ evs').
Proof. unfold log_all, session_world. cbn. by rewrite <- app_assoc. Qed.

(** Equality of two worlds built by the setters: evaluate both with
    sharing, then reassociate the event lists. *)
Ltac world_eq :=
  match goal with w : World |- _ => destruct w end;
  lazy beta iota delta
    [session_world log_all log set_tracing set_profiling set_sys_modules
     set_history_file set_plots
     files sys_modules tracing profiling history_file plots events];
  rewrite <- ?app_assoc; try reflexivity.

Lemma add_imported_insert f k m mods :
  add_imported f (<[k := m]> mods) = <[k := m]> (add_imported f mods).
Proof. unfold add_imported. by rewrite insert_union_l. Qed.

Ltac world_eq' :=
  match goal with w : World |- _ => destruct w end;
  lazy beta iota delta
    [session_world loaded_modules log_all log set_tracing set_profiling set_sys_modules
     set_history_file set_plots
     files sys_modules tracing profiling history_file plots events];
  rewrite ?add_imported_insert, ?insert_insert_eq, <- ?app_assoc; try reflexivity.

(** Every path through [run_test_with_profiling]. *)
Lemma run_test_with_profiling_paths file rd w :
  run_test_with_profiling file rd w =
    if has_loader file then
      match files w !! file with
      | None =>
          if is_extension file then
            (Raise (mkExn ImportError
                      (file +:+
                       ": cannot open shared object file: No such file or directory")),
             session_world w (sys_modules w) true (profiling w)
               [EvTracemallocStart; EvSpecFromFile file])
          else
            (Raise (mkExn FileNotFoundError
                      ("[Errno 2] No such file or directory: '" +:+ file +:+ "'")),
             session_world w (<["test_module" := []]> (sys_modules w))
               true (profiling w) (loading_events file))
      | Some f =>
          let mods := loaded_modules f w in
          match top_level_raises f with
          | Some e =>
              if is_extension file then
                (Raise e, session_world w (add_imported f (sys_modules w)) true
                            (profiling w) [EvTracemallocStart; EvSpecFromFile file])
              else
                (Raise e, session_world w mods true (profiling w) (loading_events file))
          | None =>
              match execute (top_level f)
                      (session_world w mods true true
                         (loading_events file ++ [EvProfilerEnable; EvStartTime])) with
              | (Return out, w') =>
                  (Return (build_record file rd out),
                   session_world w' mods false false closing_events)
              | (Raise e, w') => (Raise e, w')
              end
          end
      end
    else
      (Raise (mkExn AttributeError "'NoneType' object has no attribute 'loader'"),
       session_world w (sys_modules w) true (profiling w)
         [EvTracemallocStart; EvSpecFromFile file]).
Proof.
  unfold run_test_with_profiling, tracemalloc_start, spec_from_file_location,
    module_from_spec, exec_module, profiler_enable, is_extension,
    bind, modify, ret, raise, get.
  destruct (has_loader file); cbn [loader origin]; [|f_equal; world_eq'].
  assert (∀ f w1,
    w1 = session_world w (loaded_modules f w) true true
           (loading_events file ++ [EvProfilerEnable; EvStartTime]) →
    (let (r, w') := execute (top_level f) w1 in
     match r with
     | Return a =>
         (Return
            {| profile_stats := stats_text rd;
               test_file := file;
               test_output := Str.join Str.nl a;
               timestamp := now_isoformat rd;
               execution_time := (end_time rd - start_time rd)%Q;
               memory_usage :=
                 {| current := (inject_Z (traced_current rd) / 1024 / 1024)%Q;
                    peak := (inject_Z (traced_peak rd) / 1024 / 1024)%Q |} |},
          log EvPrintStats
            (set_tracing false
               (log EvTracemallocStop
                  (log EvGetTracedMemory
                     (set_profiling false (log EvProfilerDisable (log EvEndTime w')))))))
     | Raise e => (Raise e, w')
     end) =
    (let (r, w') :=
       execute (top_level f)
         (session_world w (loaded_modules f w) true true
            (loading_events file ++ [EvProfilerEnable; EvStartTime])) in
     match r with
     | Return out =>
         (Return (build_record file rd out),
          session_world w' (loaded_modules f w) false false closing_events)
     | Raise e => (Raise e, w')
     end)) as Htail.
  { intros f w1 ->.
    pose proof (run_tests_frame (top_level f) (dir (top_level f)) []
                  (session_world w (loaded_modules f w) true true
                     (loading_events file ++ [EvProfilerEnable; EvStartTime])))
      as [evs Hevs].
    fold (execute (top_level f)) in Hevs.
    destruct (execute (top_level f) _) as [[out|e] w'] eqn:Hex; [|done].
    cbn in Hevs. subst w'. f_equal. world_eq'. }
  destruct (loader_of file); cbn.
  - destruct (files w !! file) as [f|] eqn:Hf; [|f_equal; world_eq'].
    cbn. destruct (top_level_raises f); [f_equal; world_eq'|].
    cbn. rewrite lookup_insert_eq. cbn [default from_option id].
    apply Htail. world_eq'.
  - destruct (files w !! file) as [f|] eqn:Hf; [|f_equal; world_eq'].
    cbn. destruct (top_level_raises f); [f_equal; world_eq'|].
    cbn. rewrite lookup_insert_eq. cbn [default from_option id].
    apply Htail. world_eq'.
  - destruct (files w !! file) as [f|] eqn:Hf; [|f_equal; world_eq'].
    cbn. destruct (top_level_raises f); [f_equal; world_eq'|].
    cbn. rewrite lookup_insert_eq. cbn [default from_option id].
    apply Htail. world_eq'.
Qed.

End Session.

(** ** Discovery and execution as a whole *)

Section Execute.

Lemma dir_defined m name : name ∈ dir m → is_Some (getattr m name).
Proof. intros H. by apply getattr_is_Some, elem_of_dir. Qed.

Lemma execute_caught m w :
  no_escape m →
  execute m w =
    (Return (map (line_of m) (test_names m)),
     log_all (map EvCall (invoked m (test_names m))) w).
Proof.
  intros H. unfold execute. rewrite run_tests_caught; [done|].
  intros name Hn Hp. split; [by apply dir_defined|].
  apply H. unfold test_names. by apply list_elem_of_filter.
Qed.

Lemma execute_Return_inv m w out w' :
  execute m w = (Return out, w') → no_escape m.
Proof.
  intros Hrun name [Hp Hn]%list_elem_of_filter.
  eapply run_tests_Return_inv; [|exact Hrun|exact Hn|exact Hp].
  intros. by apply dir_defined.
Qed.

Lemma execute_Return m w out w' :
  execute m w = (Return out, w') →
  out = map (line_of m) (test_names m) ∧
  w' = log_all (map EvCall (invoked m (test_names m))) w.
Proof.
  intros Hrun. pose proof (execute_Return_inv _ _ _ _ Hrun) as Hne.
  rewrite (execute_caught m w Hne) in Hrun. by injection Hrun as <- <-.
Qed.

(** A returning run, taken apart. *)
Lemma run_test_with_profiling_Return file rd w pd w' :
  run_test_with_profiling file rd w = (Return pd, w') →
  ∃ f, has_loader file = true ∧
       files w !! file = Some f ∧
       top_level_raises f = None ∧
       no_escape (top_level f) ∧
       pd = build_record file rd (map (line_of (top_level f)) (test_names (top_level f))) ∧
       w' = session_world w (loaded_modules f w) false false
              (loading_events file ++ [EvProfilerEnable; EvStartTime] ++
               map EvCall (invoked (top_level f) (test_names (top_level f))) ++
               closing_events).
Proof.
  rewrite run_test_with_profiling_paths.
  destruct (has_loader file); [|done].
  destruct (files w !! file) as [f|]; [|by destruct (is_extension file)]. cbn zeta.
  destruct (top_level_raises f) eqn:Hr; [by destruct (is_extension file)|].
  destruct (execute (top_level f) _) as [[out|e] w1] eqn:Hex; [|done].
  intros [= <- <-]. exists f.
  pose proof (execute_Return_inv _ _ _ _ Hex) as Hne.
  apply execute_Return in Hex as [-> ->].
  repeat split; try done.
  rewrite session_world_log_all.
  unfold session_world. cbn. by rewrite <- !app_assoc.
Qed.

(** A run whose file loads and whose tests do not escape returns. *)
Lemma run_test_with_profiling_returns file rd w f :
  has_loader file = true →
  files w !! file = Some f →
  top_level_raises f = None →
  no_escape (top_level f) →
  run_test_with_profiling file rd w =
    (Return (build_record file rd (map (line_of (top_level f)) (test_names (top_level f)))),
     session_world w (loaded_modules f w) false false
       (loading_events file ++ [EvProfilerEnable; EvStartTime] ++
        map EvCall (invoked (top_level f) (test_names (top_level f))) ++
        closing_events)).
Proof.
  intros Hpy Hf Hr Hne. rewrite run_test_with_profiling_paths, Hpy, Hf. cbn zeta.
  rewrite Hr, (execute_caught _ _ Hne). f_equal.
  rewrite session_world_log_all.
  unfold session_world. cbn. by rewrite <- !app_assoc.
Qed.

End Execute.

(** ** The instrumentation session: claims *)

(** C1 (as the program has it): when [run_test_with_profiling] returns,
    memory tracing is stopped and the profiler is disabled; when it raises,
    whether from loading the file or from a test, nothing is released and
    memory tracing is still active. *)
Theorem instruments_after_session file rd w :
  match run_test_with_profiling file rd w with
  | (Return _, w') => tracing w' = false ∧ profiling w' = false
  | (Raise _, w') => tracing w' = true
  end.
Proof.
  rewrite run_test_with_profiling_paths.
  destruct (has_loader file); [|done].
  destruct (files w !! file) as [f|]; [|by destruct (is_extension file)]. cbn zeta.
  destruct (top_level_raises f); [by destruct (is_extension file)|].
  match goal with |- context [execute ?m ?w1] =>
    destruct (run_tests_frame m (dir m) [] w1) as [evs Hevs];
    fold (execute m) in Hevs;
    destruct (execute m w1) as [[out|e] w'] eqn:Hex
  end; [done|].
  cbn in Hevs. by subst w'.
Qed.

(** C1, refuted as stated: profiling a path whose file does not exist
    raises [FileNotFoundError] and leaves memory tracing active; profiling
    a file one of whose tests ends in [sys.exit(0)] raises [SystemExit] and
    leaves both instruments active. *)
Lemma tracer_left_active_when_load_raises :
  (let r := run_test_with_profiling "missing.py" sample_readings sample_world in
   (∃ e, r.1 = Raise e ∧ exn_class e = FileNotFoundError) ∧
   tracing r.2 = true) ∧
  (let r := run_test_with_profiling "exit.py" sample_readings
              (world_of {[ "exit.py" := source_of exit_module ]}) in
   (∃ e, r.1 = Raise e ∧ exn_class e = SystemExit) ∧
   tracing r.2 = true ∧ profiling r.2 = true).
Proof.
  split.
  - split; [|by vm_compute]. eexists. split; by vm_compute.
  - split; [|by vm_compute]. eexists. split; by vm_compute.
Qed.

(** C7 (as the program has it): a returning session performs, in this
    order: start memory tracing, load the file (find its loader, register
    the module, execute it), enable the profiler, read the start time, call
    the tests in the order of their names, read the end time, disable the
    profiler, read the traced memory, stop memory tracing, print the
    profiler's statistics. *)
Theorem session_step_order file rd w pd w' :
  run_test_with_profiling file rd w = (Return pd, w') →
  ∃ f, files w !! file = Some f ∧
       events w' =
         events w ++
         [EvTracemallocStart; EvSpecFromFile file; EvRegisterModule "test_module";
          EvExecModule file; EvProfilerEnable; EvStartTime] ++
         map EvCall (invoked (top_level f) (test_names (top_level f))) ++
         [EvEndTime; EvProfilerDisable; EvGetTracedMemory; EvTracemallocStop;
          EvPrintStats].
Proof.
  intros (f & _ & Hf & _ & _ & _ & ->)%run_test_with_profiling_Return.
  exists f. split; [done|]. unfold session_world. cbn. by rewrite <- ?app_assoc.
Qed.

Lemma session_step_order_witness :
  ∃ f, files sample_world !! "a.py" = Some f ∧
       events (run_test_with_profiling "a.py" sample_readings sample_world).2 =
         events sample_world ++
         [EvTracemallocStart; EvSpecFromFile "a.py"; EvRegisterModule "test_module";
          EvExecModule "a.py"; EvProfilerEnable; EvStartTime] ++
         map EvCall (invoked (top_level f) (test_names (top_level f))) ++
         [EvEndTime; EvProfilerDisable; EvGetTracedMemory; EvTracemallocStop;
          EvPrintStats].
Proof.
  eapply (session_step_order "a.py" sample_readings sample_world).
  vm_compute. reflexivity.
Defined.

(** C7, refuted as stated: in a session on the sample file the module is
    loaded between the start of memory tracing and the start of the
    profiler, and the statistics are printed after memory tracing has
    stopped, so the events are not those of the specified order, whatever
    is counted as the work. *)
Lemma session_events_not_as_specified :
  events (run_test_with_profiling "a.py" sample_readings sample_world).2 =
    [EvTracemallocStart; EvSpecFromFile "a.py"; EvRegisterModule "test_module";
     EvExecModule "a.py"; EvProfilerEnable; EvStartTime;
     EvCall "test_fail"; EvCall "test_ok";
     EvEndTime; EvProfilerDisable; EvGetTracedMemory; EvTracemallocStop; EvPrintStats] ∧
  ¬ ∃ work,
      events (run_test_with_profiling "a.py" sample_readings sample_world).2 =
        spec_session_events work.
Proof.
  split; [by vm_compute|].
  intros [work H]. vm_compute in H. discriminate H.
Qed.

(** ** Discovery and execution: claims *)

(** C5 (as the program has it): when no test raises an exception outside
    the [Exception] hierarchy, [execute] returns one outcome for each
    attribute whose name starts with [test_], callable or not, in ascending
    order of the names and the same in every world; each callable among
    them is called once, with no arguments; a call that raises is recorded
    as failed with the exception's message and the loop goes on; a call
    that returns is recorded as passed whatever it returns; an attribute
    that is not callable is recorded as failed with the [TypeError]
    message. *)
Theorem execute_batch m w :
  no_escape m →
  let names := test_names m in
  execute m w =
    (Return (map (λ name, outcome_line (spec_outcome name (attr_of m name))) names),
     log_all (map EvCall (invoked m names)) w) ∧
  length (map (λ name, outcome_line (spec_outcome name (attr_of m name))) names)
    = length names ∧
  (∀ name, name ∈ names ↔ name ∈ m.*1 ∧ Str.startswith name "test_" = true) ∧
  StronglySorted (λ a b, (a <? b)%string = true) names ∧
  (∀ w2, (execute m w2).1 = (execute m w).1).
Proof.
  intros Hne names. split_and!.
  - apply (execute_caught m w Hne).
  - by rewrite length_map.
  - apply elem_of_test_names.
  - apply test_names_ascending.
  - intros w2. by rewrite !execute_caught.
Qed.

Lemma no_escape_data_module : no_escape data_module.
Proof.
  intros name Hn. vm_compute in Hn.
  apply elem_of_cons in Hn as [->|Hn]; [done|].
  apply elem_of_cons in Hn as [->|Hn]; [done|].
  by apply elem_of_nil in Hn.
Qed.

Lemma execute_batch_witness :
  execute data_module sample_world =
    (Return ["Test test_data failed: 'list' object is not callable";
             "Test test_one passed"],
     log_all [EvCall "test_one"] sample_world) ∧
  length (test_names data_module) = 2%nat.
Proof.
  destruct (execute_batch data_module sample_world no_escape_data_module)
    as (H & _ & _ & _ & _).
  split; [exact H | reflexivity].
Defined.

(** C5, refuted as stated: a test that raises [SystemExit] is not recorded
    and ends the run before the next test is called; and a unit with one
    callable and one other attribute named [test_...] gets two outcomes. *)
Lemma execute_interrupted_or_overcounting :
  (let r := execute exit_module sample_world in
   r.1 = Raise (mkExn SystemExit "0") ∧ events r.2 = [EvCall "test_a"]) ∧
  (length (filter (λ na, Str.startswith na.1 "test_" = true ∧ is_callable na.2 = true)
             data_module) = 1%nat ∧
   (execute data_module sample_world).1 =
     Return ["Test test_data failed: 'list' object is not callable";
             "Test test_one passed"]).
Proof. by vm_compute. Qed.

Lemma no_escape_ok_fail_module : no_escape ok_fail_module.
Proof.
  intros name Hn. vm_compute in Hn.
  apply elem_of_cons in Hn as [->|Hn]; [done|].
  apply elem_of_cons in Hn as [->|Hn]; [done|].
  by apply elem_of_nil in Hn.
Qed.

(** C3 (as the program has it): for the unit that defines [test_ok]
    (returns) and [test_fail] (raises [AssertionError("x")]), [execute]
    returns [("test_fail", failed, "x")] first and [("test_ok", passed,
    none)] second, the names being visited in sorted order, and the
    record's status is failed. *)
Theorem scenario_ok_fail file rd w f :
  has_loader file = true →
  files w !! file = Some f →
  top_level f = ok_fail_module →
  top_level_raises f = None →
  let outcomes := [("test_fail", failed, Some "x"); ("test_ok", passed, None)] in
  (execute ok_fail_module w).1 = Return (map outcome_line outcomes) ∧
  ∃ pd w', run_test_with_profiling file rd w = (Return pd, w') ∧
           test_output pd = Str.join Str.nl (map outcome_line outcomes) ∧
           spec_overall_status outcomes = failed ∧
           test_status pd = status_text failed.
Proof.
  intros Hpy Hf Hm Hr outcomes. split.
  - by rewrite (execute_caught _ _ no_escape_ok_fail_module).
  - eexists _, _. split.
    + apply (run_test_with_profiling_returns file rd w f Hpy Hf Hr).
      rewrite Hm. apply no_escape_ok_fail_module.
    + rewrite Hm. by vm_compute.
Qed.

Lemma scenario_ok_fail_witness :
  (execute ok_fail_module sample_world).1 =
    Return ["Test test_fail failed: x"; "Test test_ok passed"] ∧
  ∃ pd w', run_test_with_profiling "a.py" sample_readings sample_world = (Return pd, w') ∧
           test_status pd = "FAILED".
Proof.
  destruct (scenario_ok_fail "a.py" sample_readings sample_world (source_of ok_fail_module))
    as [H (pd & w' & Hrun & _ & _ & Hst)]; [reflexivity..|].
  split; [exact H|]. exists pd, w'. split; [exact Hrun | exact Hst].
Defined.

(** C3, refuted as stated: the outcomes do not come with [test_ok] first. *)
Lemma scenario_ok_fail_not_in_definition_order :
  (execute ok_fail_module sample_world).1 ≠
    Return (map outcome_line [("test_ok", passed, None); ("test_fail", failed, Some "x")]).
Proof. vm_compute. discriminate. Qed.

(** ** The overall status *)

Lemma lower_join sep l :
  Str.lower (Str.join sep l) = Str.join (Str.lower sep) (map Str.lower l).
Proof.
  induction l as [|x l IH]; [done|].
  destruct l as [|y l]; [done|].
  change (Str.join sep (x :: y :: l)) with (x +:+ sep +:+ Str.join sep (y :: l)).
  rewrite !lower_app, IH. done.
Qed.

Lemma failed_line_contains name detail :
  Str.contains "failed" (Str.lower (outcome_line (name, failed, detail))) = true.
Proof.
  cbn [outcome_line]. rewrite !lower_app.
  apply contains_app_r, contains_app_r, contains_app_l. by vm_compute.
Qed.

(** The direction of the status that holds: a record with a failed
    outcome is reported as failed. *)
Lemma test_status_failed file rd (outcomes : list TestOutcome) :
  spec_overall_status outcomes = failed →
  test_status (build_record file rd (map outcome_line outcomes)) = status_text failed.
Proof.
  unfold spec_overall_status. destruct (existsb _ _) eqn:Hex; [|done].
  intros _. apply existsb_exists in Hex as ([[name st] detail] & Hin & Hst).
  cbn in Hst. destruct st; [done|].
  unfold test_status. cbn [test_output build_record].
  rewrite lower_join, (contains_join _ _ _ (Str.lower (outcome_line (name, failed, detail)))).
  - done.
  - apply list_elem_of_fmap. exists (outcome_line (name, failed, detail)). split; [done|].
    apply list_elem_of_fmap. exists (name, failed, detail). split; [done|].
    by apply list_elem_of_In.
  - apply failed_line_contains.
Qed.

(** C4, the program at the failing input: a unit whose only test,
    [test_failed_login], passes.  Its single outcome is [passed], so the
    derived status is [passed], but the program reports [FAILED], because
    it looks for the word in the text of the output, where the test's name
    has it. *)
Theorem status_failed_for_passing_test_named_failed :
  let w := world_of {[ "login.py" := source_of failed_login_module ]} in
  let outcomes := [("test_failed_login", passed, None)] in
  ∃ pd w', run_test_with_profiling "login.py" sample_readings w = (Return pd, w') ∧
           test_output pd = Str.join Str.nl (map outcome_line outcomes) ∧
           spec_overall_status outcomes = passed ∧
           test_status pd = "FAILED".
Proof. eexists _, _. split; [by vm_compute|]. by vm_compute. Qed.

(** ** The analysis collaborator *)

Section Analysis.

Variable format_2f : Q → string.

(** The request never touches the world, and what it raises is always
    an [Exception]. *)
Lemma generate_cases prompt http w :
  (∃ s, generate prompt http w = (Return s, w)) ∨
  (∃ e, generate prompt http w = (Raise e, w) ∧ is_Exception (exn_class e) = true).
Proof.
  unfold generate, requests_post, raise_for_status, json_response, bind, ret, raise.
  destruct http as [msg|r]; [right; eauto|].
  destruct ((400 <=? status_code r) && (status_code r <? 600))%Z; [right; eauto|].
  destruct (json r) as [msg|obj]; [right; eauto|].
  destruct (obj !! "response"); [left|right]; eauto.
Qed.

Lemma generate_network_error prompt msg w :
  generate prompt (PostRaises msg) w = (Raise (mkExn RequestException msg), w).
Proof. done. Qed.

Lemma generate_http_error prompt r w :
  (400 ≤ status_code r < 600)%Z →
  generate prompt (PostReturns r) w = (Raise (mkExn HTTPError (http_error_msg r)), w).
Proof.
  intros [H1 H2]. unfold generate, requests_post, raise_for_status, bind, ret, raise.
  apply Z.leb_le in H1. apply Z.ltb_lt in H2. by rewrite H1, H2.
Qed.

Lemma build_prompt_frame profile_data analysis_type w :
  (build_prompt format_2f profile_data analysis_type w).2 = w.
Proof.
  unfold build_prompt, single_key, comparative_key, read_file, bind, ret, raise, get.
  repeat case_decide; destruct profile_data; cbn; try done.
  destruct (files w !! test_file pd) as [f|]; [|done]. by destruct (text f).
Qed.

Lemma build_prompt_comparative cd w :
  build_prompt format_2f (Comparative cd) "comparative" w
    = (Return (prompt_comparative cd), w).
Proof. done. Qed.

(** Once the prompt is built, [analyze_with_llm] returns a string. *)
Lemma analyze_with_llm_built profile_data analysis_type http w prompt w1 :
  build_prompt format_2f profile_data analysis_type w = (Return prompt, w1) →
  w1 = w ∧
  analyze_with_llm format_2f profile_data analysis_type http w =
    match (generate prompt http w).1 with
    | Return s => (Return s, w)
    | Raise e => (Return ("Error analyzing with LLM: " +:+ exn_str e), w)
    end.
Proof.
  intros Hb. pose proof (build_prompt_frame profile_data analysis_type w) as Hw.
  rewrite Hb in Hw. cbn in Hw. subst w1. split; [done|].
  unfold analyze_with_llm, bind, try_except. rewrite Hb.
  destruct (generate_cases prompt http w) as [[s ->]|(e & -> & He)]; cbn; [done|].
  by rewrite He.
Qed.

End Analysis.

(** C9 (as the program has it): once the prompt is built (so, in the
    standard mode, once the test file has been read), [analyze_with_llm]
    returns a string whatever the request does; when the request fails with
    a network error, or with a status that [raise_for_status] rejects (4xx
    or 5xx), the string is the error message after
    ["Error analyzing with LLM: "]. *)
Theorem analyze_with_llm_recovers format_2f profile_data analysis_type http w prompt w1 :
  build_prompt format_2f profile_data analysis_type w = (Return prompt, w1) →
  (∃ s, analyze_with_llm format_2f profile_data analysis_type http w = (Return s, w)) ∧
  (∀ msg, http = PostRaises msg →
     analyze_with_llm format_2f profile_data analysis_type http w =
       (Return ("Error analyzing with LLM: " +:+ msg), w)) ∧
  (∀ r, http = PostReturns r → (400 ≤ status_code r < 600)%Z →
     analyze_with_llm format_2f profile_data analysis_type http w =
       (Return ("Error analyzing with LLM: " +:+ http_error_msg r), w)).
Proof.
  intros Hb.
  destruct (analyze_with_llm_built format_2f _ _ http _ _ _ Hb) as [_ Ha].
  rewrite Ha. split_and!.
  - destruct (generate prompt http w).1; eauto.
  - intros msg ->. by rewrite generate_network_error.
  - intros r -> Hr. by rewrite generate_http_error.
Qed.

Lemma analyze_with_llm_recovers_witness :
  analyze_with_llm (λ _, "0.00") (Single sample_record) "pattern"
    (PostRaises "Connection refused") sample_world =
  (Return "Error analyzing with LLM: Connection refused", sample_world).
Proof.
  eapply (analyze_with_llm_recovers (λ _, "0.00") (Single sample_record) "pattern"
            (PostRaises "Connection refused") sample_world);
    reflexivity.
Defined.

(** C9, refuted as stated: in the standard mode the test file is read
    before the request is tried; for a record whose file is gone the call
    raises [FileNotFoundError], whatever the request would have done.  And
    a response outside 2xx that [raise_for_status] lets through (here a
    300 with a JSON body) is returned as the analysis, with no error
    message in it. *)
Lemma analyze_with_llm_raises_when_file_is_gone :
  (let pd := build_record "gone.py" sample_readings ["Test test_ok passed"] in
   ∃ e, (analyze_with_llm (λ _, "0.00") (Single pd) "standard"
           (PostRaises "Connection refused") sample_world).1 = Raise e ∧
        exn_class e = FileNotFoundError) ∧
  (let r := {| status_code := 300; http_error_msg := "";
               json := inr {[ "response" := "see other" ]} |} in
   (analyze_with_llm (λ _, "0.00") (Single sample_record) "pattern"
      (PostReturns r) sample_world).1 = Return "see other").
Proof. split; [|by vm_compute]. eexists. split; by vm_compute. Qed.

(** ** The comparison engine *)

Section Comparison.

Variable format_2f : Q → string.







(** Every path through [compare_implementations]. *)
Lemma compare_implementations_paths file1 file2 rd1 rd2 http w :
  compare_implementations format_2f file1 file2 rd1 rd2 http w =
    match run_test_with_profiling file1 rd1 w with
    | (Raise e, w1) => (Raise e, w1)
    | (Return profile1, w1) =>
        match run_test_with_profiling file2 rd2 w1 with
        | (Raise e, w2) => (Raise e, w2)
        | (Return profile2, w2) =>
            let cd := {| test_file1 := file1; test_file2 := file2;
                         profile_stats1 := profile_stats profile1;
                         profile_stats2 := profile_stats profile2 |} in
            (Return {| implementation1 := profile1;
                       implementation2 := profile2;
                       comparative_analysis :=
                         match (generate (prompt_comparative cd) http w2).1 with
                         | Return s => s
                         | Raise e => "Error analyzing with LLM: " +:+ exn_str e
                         end |}, w2)
        end
    end.
Proof.
  unfold compare_implementations, bind.
  destruct (run_test_with_profiling file1 rd1 w) as [[p1|e1] w1]; [|done].
  destruct (run_test_with_profiling file2 rd2 w1) as [[p2|e2] w2]; [|done].
  cbn zeta.
  match goal with |- context [analyze_with_llm _ (Comparative ?cd) _ _ _] =>
    destruct (analyze_with_llm_built format_2f (Comparative cd) "comparative" http w2
                _ _ (build_prompt_comparative format_2f cd w2)) as [_ ->]
  end.
  by destruct (generate _ http w2).1.
Qed.

End Comparison.

(** ** The single-file paths *)

Section SingleFile.

Variable format_2f : Q → string.

(** Pattern analysis after a returning run: the test file is read
    outside the [try], so a file that does not decode makes the call raise
    and the profile is lost; the request is made inside the [try], so its
    failure ends up in the analysis text. *)
Lemma analyze_test_patterns_after_run file rd http w pd w1 :
  run_test_with_profiling file rd w = (Return pd, w1) →
  ∃ f, files w !! file = Some f ∧
       match text f with
       | Some test_code =>
           analyze_test_patterns file rd http w =
             (Return {| pattern_profile_data := pd;
                        pattern_analysis :=
                          match (generate (prompt_test_patterns test_code pd) http w1).1 with
                          | Return s => s
                          | Raise e => "Error analyzing test patterns: " +:+ exn_str e
                          end |}, w1)
       | None =>
           ∃ e, analyze_test_patterns file rd http w = (Raise e, w1) ∧
                exn_class e = UnicodeDecodeError
       end.
Proof.
  intros Hrun. unfold analyze_test_patterns, bind. rewrite Hrun.
  apply run_test_with_profiling_Return in Hrun as (f & _ & Hf & _ & _ & _ & Hw).
  exists f. split; [done|].
  assert (files w1 = files w) as Hfs by (by subst w1).
  unfold read_file, bind, get, ret, raise. rewrite Hfs, Hf.
  destruct (text f) as [test_code|]; [|eauto].
  unfold try_except, bind, ret.
  destruct (generate_cases (prompt_test_patterns test_code pd) http w1)
    as [[s ->]|(e & -> & He)]; [done|].
  by rewrite He.
Qed.

(** The single-file analysis refuses a path with no file before anything
    is started. *)
Lemma analyze_test_code_missing file save_history rd http w :
  files w !! file = None →
  analyze_test_code format_2f file save_history rd http w =
    (Raise (mkExn FileNotFoundError ("Test file " +:+ file +:+ " not found")), w).
Proof.
  intros Hf. unfold analyze_test_code, bind, get, raise. rewrite Hf.
  by rewrite bool_decide_eq_false_2 by (by intros [? ?]).
Qed.

End SingleFile.






(** ** The history store *)

Section History.

Lemma save_to_history_stored r w :
  history_file w ≠ Malformed →
  save_to_history r w =
    (Return (), set_history_file (Stored (stored_history w ++ [r])) w).
Proof.
  intros H. unfold save_to_history, history_file_exists, load_history,
    stored_history, bind, get, ret, modify.
  cbn. destruct (history_file w) eqn:Hh; cbn; rewrite ?Hh; done.
Qed.

Lemma save_to_history_malformed r w :
  history_file w = Malformed →
  save_to_history r w =
    (Raise (mkExn JSONDecodeError "Expecting value: line 1 column 1 (char 0)"), w).
Proof.
  intros H. unfold save_to_history, history_file_exists, load_history,
    bind, get, ret, modify, raise.
  cbn. rewrite H. cbn. by rewrite H.
Qed.

Lemma save_each_stored rs w :
  history_file w ≠ Malformed →
  ∃ w', save_each rs w = (Return (), w') ∧
        history_file w' ≠ Malformed ∧
        stored_history w' = stored_history w ++ rs.
Proof.
  revert w. induction rs as [|r rs IH]; intros w H.
  - exists w. by rewrite app_nil_r.
  - cbn [save_each]. unfold bind. rewrite (save_to_history_stored r w H).
    destruct (IH (set_history_file (Stored (stored_history w ++ [r])) w))
      as (w' & -> & Hw' & Hs); [done|].
    exists w'. split_and!; [done..|].
    rewrite Hs. cbn. by rewrite <- app_assoc.
Qed.

Lemma test_history_all rs file :
  Forall (λ r, test_file r = file) rs → test_history rs file = rs.
Proof.
  unfold test_history. induction 1 as [|r rs Hr _ IH]; [done|].
  rewrite filter_cons_True by done. by rewrite IH.
Qed.

Lemma plot_performance_history_paths is_isoformat file w :
  plot_performance_history is_isoformat file w =
    match history_file w with
    | NoFile => (Return "No history data available", w)
    | Malformed =>
        (Raise (mkExn JSONDecodeError "Expecting value: line 1 column 1 (char 0)"), w)
    | Stored history =>
        match test_history history file with
        | [] => (Return "No history data available for this test file", w)
        | selected =>
            match List.find (λ entry, negb (is_isoformat (timestamp entry))) selected with
            | Some entry =>
                (Raise (mkExn ValueError
                          ("Invalid isoformat string: '" +:+ timestamp entry +:+ "'")), w)
            | None =>
                (Return ("Performance history plot saved to " +:+ plot_file file),
                 set_plots (<[plot_file file := plotted_series selected]>) w)
            end
        end
    end.
Proof.
  unfold plot_performance_history, history_file_exists, load_history,
    bind, get, ret, modify, raise.
  cbn. destruct (history_file w) eqn:Hh; cbn; rewrite ?Hh; try done.
  destruct (test_history history file) as [|r l]; [done|].
  cbn [List.find]. destruct (negb (is_isoformat (timestamp r))); [done|].
  by destruct (List.find _ l).
Qed.

Lemma find_invalid_None (is_isoformat : string → bool) (l : list ProfileData) :
  Forall (λ entry, is_isoformat (timestamp entry) = true) l →
  List.find (λ entry, negb (is_isoformat (timestamp entry))) l = None.
Proof.
  induction 1 as [|r l Hr _ IH]; [done|]. cbn [List.find]. by rewrite Hr.
Qed.

End History.

(** C6: on a history that is absent or well-formed, [save_to_history]
    returns and the file then holds the former records, unchanged and in
    their order, followed by the new one, so that selecting the records of
    the new one's path gives it last; and after saving K records of one
    path in a row,
    selecting that path gives the records selected before followed by
    exactly those K, in the order they were saved: on a history that was
    absent or empty, exactly those K. *)
Theorem history_round_trip w :
  history_file w ≠ Malformed →
  (∀ r, ∃ w',
     save_to_history r w = (Return (), w') ∧
     history_file w' = Stored (stored_history w ++ [r]) ∧
     test_history (stored_history w') (test_file r) =
       test_history (stored_history w) (test_file r) ++ [r] ∧
     last (test_history (stored_history w') (test_file r)) = Some r) ∧
  (∀ rs file,
     Forall (λ r, test_file r = file) rs →
     ∃ w', save_each rs w = (Return (), w') ∧
           stored_history w' = stored_history w ++ rs ∧
           test_history (stored_history w') file =
             test_history (stored_history w) file ++ rs ∧
           (stored_history w = [] → test_history (stored_history w') file = rs)).
Proof.
  intros H. split.
  - intros r. eexists. split; [by apply save_to_history_stored|].
    assert (test_history (stored_history w ++ [r]) (test_file r) =
            test_history (stored_history w) (test_file r) ++ [r]) as Hq.
    { unfold test_history. rewrite filter_app. f_equal.
      by rewrite filter_cons_True. }
    assert (stored_history (set_history_file (Stored (stored_history w ++ [r])) w)
            = stored_history w ++ [r]) as -> by done.
    split_and!; [done|done|by rewrite Hq, last_snoc].
  - intros rs file Hrs.
    destruct (save_each_stored rs w H) as (w' & Hrun & _ & Hs).
    exists w'. rewrite Hs.
    assert (test_history (stored_history w ++ rs) file =
            test_history (stored_history w) file ++ rs) as Hq.
    { unfold test_history. rewrite filter_app. f_equal. by apply test_history_all. }
    split_and!; [done..|].
    intros Hnil. rewrite Hq, Hnil. done.
Qed.

Lemma history_round_trip_witness :
  ∃ w', save_each [record_for "a.py" "2024-05-01T10:00:00";
                   record_for "a.py" "2024-05-01T11:00:00"] history_world = (Return (), w') ∧
        test_history (stored_history w') "a.py" =
          [record_for "a.py" "2024-05-01T10:00:00";
           record_for "a.py" "2024-05-01T11:00:00"].
Proof.
  assert (history_file history_world ≠ Malformed) as H by discriminate.
  destruct (history_round_trip history_world H) as [_ Hk].
  destruct (Hk [record_for "a.py" "2024-05-01T10:00:00";
                record_for "a.py" "2024-05-01T11:00:00"] "a.py")
    as (w' & Hrun & _ & Hq & _).
  { repeat constructor. }
  exists w'. split; [exact Hrun | exact Hq].
Defined.

(** C8: on a history that is absent or well-formed, the selection of
    [plot_performance_history] holds the persisted records whose path is
    the argument, all of them and only them, in the persisted order.  With
    no history file, or with no record of that path, the selection is empty
    and the call raises nothing: it returns a message and leaves the world
    as it was.  Otherwise, the timestamps of the selection being in ISO
    format, the call returns and the series plotted is that of the
    selection. *)
Theorem history_query is_isoformat file w :
  history_file w ≠ Malformed →
  let selected := test_history (stored_history w) file in
  (∀ r, r ∈ selected ↔ r ∈ stored_history w ∧ test_file r = file) ∧
  selected `sublist_of` stored_history w ∧
  (history_file w = NoFile → selected = []) ∧
  (selected = [] →
     plot_performance_history is_isoformat file w =
       (Return match history_file w with
               | NoFile => "No history data available"
               | _ => "No history data available for this test file"
               end, w)) ∧
  (selected ≠ [] →
     Forall (λ entry, is_isoformat (timestamp entry) = true) selected →
     ∃ msg w', plot_performance_history is_isoformat file w = (Return msg, w') ∧
               plots w' !! plot_file file = Some (plotted_series selected)).
Proof.
  intros H selected. split_and!.
  - intros r. unfold selected, test_history. rewrite list_elem_of_filter. tauto.
  - apply sublist_filter.
  - unfold selected, stored_history. by intros ->.
  - rewrite plot_performance_history_paths. subst selected. unfold stored_history.
    destruct (history_file w) as [| |history] eqn:Hh; [done|done|].
    by intros ->.
  - rewrite plot_performance_history_paths. subst selected. unfold stored_history.
    destruct (history_file w) as [| |history] eqn:Hh; [done|done|].
    intros Hne Hiso.
    destruct (test_history history file) as [|r l] eqn:Hsel; [done|].
    rewrite (find_invalid_None _ _ Hiso).
    eexists _, _. split; [done|]. destruct w. apply lookup_insert_eq.
Qed.

Lemma history_query_witness :
  plot_performance_history (λ _, true) "missing.py" sample_world =
    (Return "No history data available", sample_world) ∧
  plot_performance_history (λ _, true) "missing.py" history_world =
    (Return "No history data available for this test file", history_world).
Proof.
  assert (history_file sample_world ≠ Malformed) as H1 by discriminate.
  assert (history_file history_world ≠ Malformed) as H2 by discriminate.
  destruct (history_query (λ _, true) "missing.py" sample_world H1)
    as (_ & _ & _ & He1 & _).
  destruct (history_query (λ _, true) "missing.py" history_world H2)
    as (_ & _ & _ & He2 & _).
  split; [exact (He1 eq_refl) | exact (He2 eq_refl)].
Defined.

(** * Further properties *)

(** ** Strings: single characters, separators, reversal *)

Section MoreStrFacts.

Lemma app_String c s t : String c s +:+ t = String c (s +:+ t).
Proof. done. Qed.

Lemma app_empty_l t : "" +:+ t = t.
Proof. done. Qed.

Lemma prefix_empty s : String.prefix "" s = true.
Proof. by destruct s. Qed.

Lemma prefix_single c x s :
  String.prefix (String c "") (String x s) = bool_decide (c = x).
Proof.
  cbn [String.prefix]. rewrite prefix_empty.
  destruct (ascii_dec c x);
    [by rewrite bool_decide_eq_true_2 | by rewrite bool_decide_eq_false_2].
Qed.

Lemma contains_single_cons c x s :
  Str.contains (String c "") (String x s) =
    bool_decide (c = x) || Str.contains (String c "") s.
Proof. cbn [Str.contains]. by rewrite prefix_single. Qed.

Lemma contains_single_app c s t :
  Str.contains (String c "") (s +:+ t) =
    Str.contains (String c "") s || Str.contains (String c "") t.
Proof.
  induction s as [|x s IH]; [done|].
  rewrite app_String, !contains_single_cons, IH. by rewrite orb_assoc.
Qed.

(** A prefix that avoids the character [c] cannot reach over a [c]. *)
Lemma prefix_before_sep n a c b :
  Str.contains (String c "") n = false →
  String.prefix n (a +:+ String c b) = true → String.prefix n a = true.
Proof.
  revert a. induction n as [|y n IH]; intros a Hc Hp; [apply prefix_empty|].
  rewrite contains_single_cons in Hc. apply orb_false_iff in Hc as [Hy Hn].
  apply bool_decide_eq_false in Hy.
  destruct a as [|x a].
  - rewrite app_empty_l in Hp. cbn [String.prefix] in Hp.
    destruct (ascii_dec y c); [congruence|done].
  - rewrite app_String in Hp. cbn [String.prefix] in *.
    destruct (ascii_dec y x); [auto|done].
Qed.

(** A needle that avoids [c] and occurs in [a ++ c ++ b] occurs in [a] or
    in [b]. *)
Lemma contains_sep_inv n a c b :
  n ≠ "" → Str.contains (String c "") n = false →
  Str.contains n (a +:+ String c b) = true →
  Str.contains n a = true ∨ Str.contains n b = true.
Proof.
  intros Hn Hc. induction a as [|x a IH]; intros H.
  - rewrite app_empty_l in H. cbn [Str.contains] in H.
    apply orb_true_iff in H as [H|H]; [|by right].
    destruct n as [|y n]; [done|].
    rewrite contains_single_cons in Hc. apply orb_false_iff in Hc as [Hy _].
    apply bool_decide_eq_false in Hy. cbn [String.prefix] in H.
    destruct (ascii_dec y c); [congruence|done].
  - rewrite app_String in H. cbn [Str.contains] in H.
    apply orb_true_iff in H as [H|H].
    + left. apply contains_prefix.
      apply (prefix_before_sep n (String x a) c b Hc). by rewrite app_String.
    + destruct (IH H) as [Ha|Hb]; [left|by right].
      cbn [Str.contains]. rewrite Ha. apply orb_true_r.
Qed.

Lemma contains_join_inv n c l :
  n ≠ "" → Str.contains (String c "") n = false →
  Str.contains n (Str.join (String c "") l) = true →
  ∃ x, x ∈ l ∧ Str.contains n x = true.
Proof.
  intros Hn Hc. induction l as [|x l IH]; intros H.
  - destruct n; [done|]. done.
  - destruct l as [|y l].
    + exists x. split; [left|done].
    + change (Str.join (String c "") (x :: y :: l))
        with (x +:+ String c (Str.join (String c "") (y :: l))) in H.
      apply contains_sep_inv in H as [H|H]; [| |done|done].
      * exists x. split; [left|done].
      * destruct (IH H) as (z & Hz & Hcz). exists z. split; [by right|done].
Qed.

Lemma rev_app_rev_app s t u :
  String.rev_app (String.rev_app s t) u = String.rev_app t (s +:+ u).
Proof.
  revert t u. induction s as [|c s IH]; intros t u; [done|].
  cbn [String.rev_app]. rewrite IH. cbn [String.rev_app]. by rewrite app_String.
Qed.

Lemma app_empty_r s : s +:+ "" = s.
Proof. induction s as [|c s IH]; [done|]. by rewrite app_String, IH. Qed.

Lemma rev_involutive s : String.rev (String.rev s) = s.
Proof. unfold String.rev. by rewrite rev_app_rev_app, app_empty_r. Qed.

End MoreStrFacts.

(** ** The status line, exactly *)

Section Status.

Lemma failed_has_no_newline : Str.contains Str.nl "failed" = false.
Proof. done. Qed.

Lemma failed_has_no_space : Str.contains " " "failed" = false.
Proof. done. Qed.

Lemma contains_failed_join lines :
  Str.contains "failed" (Str.lower (Str.join Str.nl lines)) = true ↔
  ∃ line, line ∈ lines ∧ Str.contains "failed" (Str.lower line) = true.
Proof.
  rewrite lower_join. split.
  - intros H. apply (contains_join_inv "failed" "010"%char) in H as (x & Hx & Hc);
      [|done|done].
    apply list_elem_of_fmap in Hx as (line & -> & Hl). eauto.
  - intros (line & Hl & Hc). apply (contains_join _ _ _ (Str.lower line)); [|done].
    apply list_elem_of_fmap. eauto.
Qed.

Lemma test_status_lines pd lines :
  test_output pd = Str.join Str.nl lines →
  (test_status pd = "FAILED" ↔
     ∃ line, line ∈ lines ∧ Str.contains "failed" (Str.lower line) = true) ∧
  (test_status pd = "PASSED" ↔
     ∀ line, line ∈ lines → Str.contains "failed" (Str.lower line) = false).
Proof.
  intros Hout. pose proof (contains_failed_join lines) as Hj.
  unfold test_status. rewrite Hout.
  destruct (Str.contains "failed" (Str.lower (Str.join Str.nl lines))) eqn:Hc; cbn [negb].
  - split; [split; [intros _; by apply Hj | done]|].
    split; [done|]. intros Hall. destruct (proj1 Hj eq_refl) as (line & Hl & Hcl).
    by rewrite (Hall line Hl) in Hcl.
  - split; [split; [done|]|].
    + intros Hex. apply Hj in Hex. discriminate.
    + split; [|done]. intros _ line Hl.
      destruct (Str.contains "failed" (Str.lower line)) eqn:Hcl; [|done].
      assert (false = true) by (apply Hj; eauto). done.
Qed.

(** X6: the status is decided line by line: [FAILED] exactly when some
    line of the output, in lower case, contains [failed]; [PASSED]
    exactly when none does. *)
Theorem test_status_by_lines pd lines :
  test_output pd = Str.join Str.nl lines →
  (test_status pd = "FAILED" ↔
     ∃ line, line ∈ lines ∧ Str.contains "failed" (Str.lower line) = true) ∧
  (test_status pd = "PASSED" ↔
     ∀ line, line ∈ lines → Str.contains "failed" (Str.lower line) = false).
Proof. apply test_status_lines. Qed.

Lemma test_status_by_lines_witness :
  test_status sample_record = "PASSED".
Proof.
  apply (test_status_by_lines sample_record ["Test test_ok passed"]); [reflexivity|].
  intros line ->%list_elem_of_singleton. reflexivity.
Defined.

(** The line of a passing test contains [failed] only if its name does. *)
Lemma passed_line_contains name :
  Str.contains "failed" (Str.lower (outcome_line (name, passed, None))) = true →
  Str.contains "failed" (Str.lower name) = true.
Proof.
  cbn [outcome_line]. rewrite !lower_app.
  change (Str.lower "Test ") with ("test" +:+ String " " "").
  change (Str.lower " passed") with (String " " "passed").
  intros H.
  assert (("test" +:+ String " " "") +:+ Str.lower name +:+ String " " "passed"
          = "test" +:+ String " " (Str.lower name +:+ String " " "passed")) as Heq.
  { done. }
  rewrite Heq in H.
  apply (contains_sep_inv "failed" "test" " "%char) in H as [H|H]; [done| |done|done].
  apply (contains_sep_inv "failed" (Str.lower name) " "%char) in H as [H|H];
    [done|done|done|done].
Qed.

(** X7: a run one of whose tests raised, or was not callable, is reported
    [FAILED]. *)
Theorem failing_test_reported_failed file rd w pd w' f name :
  run_test_with_profiling file rd w = (Return pd, w') →
  files w !! file = Some f →
  name ∈ test_names (top_level f) →
  (∀ v, getattr (top_level f) name ≠ Some (Callable (Returns v))) →
  test_status pd = "FAILED".
Proof.
  intros Hrun Hf Hn Hfail.
  apply run_test_with_profiling_Return in Hrun as (f' & _ & Hf' & _ & _ & -> & _).
  assert (f' = f) as -> by congruence.
  apply (test_status_lines _ (map (line_of (top_level f)) (test_names (top_level f))));
    [done|].
  exists (line_of (top_level f) name). split; [apply list_elem_of_fmap; eauto|].
  unfold line_of, attr_of.
  destruct (getattr (top_level f) name) as [[[v|e]|ty]|] eqn:Ha; cbn [default from_option id spec_outcome];
    try apply failed_line_contains.
  by destruct (Hfail v).
Qed.

Lemma failing_test_reported_failed_witness :
  ∃ pd w', run_test_with_profiling "a.py" sample_readings sample_world = (Return pd, w') ∧
           test_status pd = "FAILED".
Proof.
  eexists _, _. split; [by vm_compute|].
  eapply (failing_test_reported_failed "a.py" sample_readings sample_world _ _
            (source_of ok_fail_module) "test_fail").
  - by vm_compute.
  - reflexivity.
  - vm_compute. left.
  - intros v. vm_compute. discriminate.
Defined.

(** X8: a run all of whose tests returned is reported [PASSED], provided
    no test name contains [failed] in any letter case. *)
Theorem passing_tests_reported_passed file rd w pd w' f :
  run_test_with_profiling file rd w = (Return pd, w') →
  files w !! file = Some f →
  (∀ name, name ∈ test_names (top_level f) →
           ∃ v, getattr (top_level f) name = Some (Callable (Returns v))) →
  (∀ name, name ∈ test_names (top_level f) →
           Str.contains "failed" (Str.lower name) = false) →
  test_status pd = "PASSED".
Proof.
  intros Hrun Hf Hret Hnames.
  apply run_test_with_profiling_Return in Hrun as (f' & _ & Hf' & _ & _ & -> & _).
  assert (f' = f) as -> by congruence.
  apply (test_status_lines _ (map (line_of (top_level f)) (test_names (top_level f))));
    [done|].
  intros line (name & -> & Hn)%list_elem_of_fmap.
  destruct (Hret name Hn) as [v Hv].
  unfold line_of, attr_of. rewrite Hv. cbn [default from_option id spec_outcome].
  destruct (Str.contains "failed" (Str.lower (outcome_line (name, passed, None)))) eqn:Hc;
    [|done].
  apply passed_line_contains in Hc. by rewrite (Hnames name Hn) in Hc.
Qed.

Lemma two_elements {A} (x a b : A) : x ∈ [a; b] → x = a ∨ x = b.
Proof.
  intros [->|H]%elem_of_cons; [by left|].
  apply list_elem_of_singleton in H. by right.
Qed.

Lemma passing_tests_reported_passed_witness :
  ∃ pd w', run_test_with_profiling "p.py" sample_readings
             (world_of {[ "p.py" := source_of passing_module ]}) = (Return pd, w') ∧
           test_status pd = "PASSED".
Proof.
  eexists _, _. split; [by vm_compute|].
  eapply (passing_tests_reported_passed "p.py" sample_readings
            (world_of {[ "p.py" := source_of passing_module ]}) _ _
            (source_of passing_module)).
  - by vm_compute.
  - reflexivity.
  - intros name Hn. vm_compute in Hn. apply two_elements in Hn as [-> | ->]; by eexists.
  - intros name Hn. vm_compute in Hn. apply two_elements in Hn as [-> | ->]; reflexivity.
Defined.

(** X5: a file with no attribute named [test_...] gives an empty output
    and is reported [PASSED]; nothing of it is called. *)
Theorem no_tests_reported_passed file rd w f :
  has_loader file = true →
  files w !! file = Some f →
  top_level_raises f = None →
  test_names (top_level f) = [] →
  ∃ pd w', run_test_with_profiling file rd w = (Return pd, w') ∧
           test_output pd = "" ∧
           test_status pd = "PASSED" ∧
           events w' = events w ++ loading_events file ++
                       [EvProfilerEnable; EvStartTime] ++ closing_events.
Proof.
  intros Hpy Hf Hr Hnames.
  assert (no_escape (top_level f)) as Hne.
  { intros name Hn. rewrite Hnames in Hn. by apply elem_of_nil in Hn. }
  rewrite (run_test_with_profiling_returns file rd w f Hpy Hf Hr Hne), Hnames.
  eexists _, _. split; [done|]. by split_and!.
Qed.

Lemma no_tests_reported_passed_witness :
  ∃ pd w', run_test_with_profiling "u.py" sample_readings
             (world_of {[ "u.py" := source_of unittest_style_module ]}) = (Return pd, w') ∧
           test_output pd = "" ∧ test_status pd = "PASSED".
Proof.
  destruct (no_tests_reported_passed "u.py" sample_readings
              (world_of {[ "u.py" := source_of unittest_style_module ]})
              (source_of unittest_style_module))
    as (pd & w' & Hrun & Hout & Hst & _); [reflexivity..|].
  exists pd, w'. split_and!; [exact Hrun | exact Hout | exact Hst].
Defined.

End Status.

(** ** The session: what it leaves alone, and how it fails *)

Section SessionMore.

Lemma run_test_with_profiling_keeps file rd w :
  let w' := (run_test_with_profiling file rd w).2 in
  files w' = files w ∧ history_file w' = history_file w ∧ plots w' = plots w ∧
  ∃ evs, events w' = events w ++ evs.
Proof.
  rewrite run_test_with_profiling_paths.
  destruct (has_loader file); [|cbn; eauto 10].
  destruct (files w !! file) as [f|]; [|destruct (is_extension file); cbn; eauto 10].
  cbn zeta.
  destruct (top_level_raises f); [destruct (is_extension file); cbn; eauto 10|].
  match goal with |- context [execute ?m ?w1] =>
    destruct (run_tests_frame m (dir m) [] w1) as [evs Hevs];
    fold (execute m) in Hevs;
    destruct (execute m w1) as [[out|e] w'] eqn:Hex
  end; cbn in Hevs; subst w'.
  - cbn. split_and!; [done..|]. rewrite <- !app_assoc. eauto.
  - cbn. split_and!; [done..|]. rewrite <- !app_assoc. eauto.
Qed.

(** X1: whatever it does, [run_test_with_profiling] leaves the files, the
    history and the plots as they were, and only adds to the events. *)
Theorem run_test_with_profiling_frame file rd w :
  let w' := (run_test_with_profiling file rd w).2 in
  files w' = files w ∧ history_file w' = history_file w ∧ plots w' = plots w ∧
  ∃ evs, events w' = events w ++ evs.
Proof.
  apply run_test_with_profiling_keeps.
Qed.



(** The loop, up to the first test that escapes. *)
Lemma run_tests_first_escape m names acc w pre name post e :
  (∀ n, n ∈ names → is_Some (getattr m n)) →
  filter (λ n, Str.startswith n "test_" = true) names = pre ++ name :: post →
  (∀ n, n ∈ pre → escapes (attr_of m n) = false) →
  getattr m name = Some (Callable (Raises e)) →
  is_Exception (exn_class e) = false →
  run_tests m names acc w =
    (Raise e, log_all (map EvCall (invoked m pre) ++ [EvCall name]) w).
Proof.
  intros Hdef Hfil Hpre Ha He.
  revert acc w pre Hfil Hpre. induction names as [|n names IH]; intros acc w pre Hfil Hpre.
  - by destruct pre.
  - cbn [run_tests]. unfold bind. rewrite filter_cons in Hfil.
    destruct (Str.startswith n "test_") eqn:Hp.
    + rewrite decide_True in Hfil by done. destruct pre as [|p pre].
      * injection Hfil as -> Hpost.
        destruct (run_test_escapes m name _ acc w Hp Ha) as (e' & [= <-] & ->);
          [by cbn; rewrite He|].
        done.
      * injection Hfil as -> Hfil.
        destruct (Hdef p) as [a Hpa]; [left|].
        assert (escapes a = false) as Hea.
        { rewrite <- (attr_of_Some _ _ _ Hpa). apply Hpre. left. }
        rewrite (run_test_caught m p a acc w Hp Hpa Hea).
        rewrite (IH (λ x Hx, Hdef x (list_elem_of_further _ _ _ Hx)) _ _ pre Hfil)
          by (intros; apply Hpre; by right).
        rewrite log_all_app. unfold invoked. rewrite filter_cons.
        rewrite (attr_of_Some _ _ _ Hpa).
        destruct (is_callable a);
          [rewrite decide_True by done | rewrite decide_False by done]; done.
    + rewrite decide_False in Hfil by done.
      rewrite (run_test_skip m n acc w Hp).
      apply IH; [|done|done]. intros; apply Hdef. by right.
Qed.

(** X3: when a test raises an exception that is not an [Exception], the
    tests before it (in name order) have been called, it has been called,
    none after it is, and the exception leaves the loop with the outcomes
    gathered so far. *)
Theorem execute_stops_at_first_escape m w pre name post e :
  test_names m = pre ++ name :: post →
  (∀ n, n ∈ pre → escapes (attr_of m n) = false) →
  getattr m name = Some (Callable (Raises e)) →
  is_Exception (exn_class e) = false →
  execute m w = (Raise e, log_all (map EvCall (invoked m pre) ++ [EvCall name]) w).
Proof.
  intros Hn Hpre Ha He. unfold execute.
  apply (run_tests_first_escape m (dir m) [] w pre name post e); try done.
  intros n Hin. by apply dir_defined.
Qed.

Lemma execute_stops_at_first_escape_witness :
  execute exit_module sample_world =
    (Raise (mkExn SystemExit "0"), log_all [EvCall "test_a"] sample_world).
Proof.
  apply (execute_stops_at_first_escape exit_module sample_world [] "test_a" ["test_b"]);
    [reflexivity | | reflexivity | reflexivity].
  intros n Hn. by apply elem_of_nil in Hn.
Defined.

Lemma getattr_app_last m name a : getattr (m ++ [(name, a)]) name = Some a.
Proof.
  induction m as [|[n b] m IH]; cbn [getattr app].
  - by rewrite decide_True.
  - by rewrite IH.
Qed.

Lemma invoked_app m l1 l2 : invoked m (l1 ++ l2) = invoked m l1 ++ invoked m l2.
Proof. unfold invoked. apply filter_app. Qed.

Lemma invoked_cons m name l :
  invoked m (name :: l) =
    (if is_callable (attr_of m name) then [name] else []) ++ invoked m l.
Proof.
  unfold invoked. rewrite filter_cons.
  destruct (is_callable (attr_of m name));
    [by rewrite decide_True | by rewrite decide_False].
Qed.

Lemma not_called name l m : name ∉ l → EvCall name ∉ map EvCall (invoked m l).
Proof.
  intros Hn (n & [= <-] & Hin)%list_elem_of_fmap.
  apply Hn. unfold invoked in Hin. by apply list_elem_of_filter in Hin as [_ ?].
Qed.

(** X4: a test bound more than once in the file is run once, with the
    binding made last.  In a module that defines no [__dir__] of its own
    and none of whose tests escapes, [execute] visits the name at one place
    among the test names, gives it the one outcome line of its last
    binding, and calls that binding exactly once if it is callable: no
    other call of the run is a call of this name. *)
Theorem rebound_test_runs_once m name a w :
  Str.startswith name "test_" = true →
  "__dir__" ∉ m.*1 →
  no_escape (m ++ [(name, a)]) →
  ∃ pre post,
    test_names (m ++ [(name, a)]) = pre ++ name :: post ∧
    (name ∉ pre) ∧ (name ∉ post) ∧
    execute (m ++ [(name, a)]) w =
      (Return (map (line_of (m ++ [(name, a)])) pre ++
               outcome_line (spec_outcome name a) ::
               map (line_of (m ++ [(name, a)])) post),
       log_all (map EvCall (invoked (m ++ [(name, a)]) pre) ++
                (if is_callable a then [EvCall name] else []) ++
                map EvCall (invoked (m ++ [(name, a)]) post)) w) ∧
    (EvCall name ∉ map EvCall (invoked (m ++ [(name, a)]) pre)) ∧
    (EvCall name ∉ map EvCall (invoked (m ++ [(name, a)]) post)).
Proof.
  intros Hp _ Hne. set (M := m ++ [(name, a)]) in *.
  assert (name ∈ test_names M) as Hin.
  { apply elem_of_test_names. split; [|done].
    subst M. rewrite fmap_app. apply elem_of_app. right. cbn. left. }
  assert (NoDup (test_names M)) as Hnd.
  { unfold test_names. apply NoDup_filter, NoDup_dir. }
  assert (attr_of M name = a) as Ha.
  { unfold attr_of. subst M. by rewrite getattr_app_last. }
  apply list_elem_of_split in Hin as (pre & post & Hsplit).
  rewrite Hsplit in Hnd. apply NoDup_app in Hnd as (_ & Hpre & Hpost).
  apply NoDup_cons in Hpost as [Hpost _].
  assert (name ∉ pre) as Hpre'.
  { intros Hin. apply (Hpre name Hin). left. }
  exists pre, post. split_and!; [done|done|done| |by apply not_called..].
  rewrite (execute_caught M w Hne), Hsplit. f_equal.
  - rewrite map_app. cbn [map]. unfold line_of at 2. by rewrite Ha.
  - f_equal. rewrite invoked_app, invoked_cons, Ha, !map_app.
    by destruct (is_callable a).
Qed.

End SessionMore.

Lemma rebound_module_no_escape : no_escape rebound_module.
Proof.
  intros name Hn. vm_compute in Hn.
  apply list_elem_of_singleton in Hn as ->. reflexivity.
Qed.

Lemma rebound_test_runs_once_witness :
  ∃ pre post,
    test_names rebound_module = pre ++ "test_x" :: post ∧
    execute rebound_module sample_world =
      (Return (map (line_of rebound_module) pre ++
               "Test test_x passed" :: map (line_of rebound_module) post),
       log_all (map EvCall (invoked rebound_module pre) ++ [EvCall "test_x"] ++
                map EvCall (invoked rebound_module post)) sample_world).
Proof.
  destruct (rebound_test_runs_once
              [("test_x", Callable (Raises (mkExn AssertionError "old")))]
              "test_x" (Callable (Returns PyNone)) sample_world)
    as (pre & post & Hn & _ & _ & Hex & _).
  - reflexivity.
  - intros Hin. vm_compute in Hin. apply list_elem_of_singleton in Hin. discriminate Hin.
  - exact rebound_module_no_escape.
  - exists pre, post. split; [exact Hn | exact Hex].
Defined.

(** ** The history store and the plot: what they leave alone, and how
    they fail *)

Section HistoryMore.

(** X9: on a history file that [json.load] rejects, [save_to_history]
    raises and writes nothing: the file is not opened for writing, and the
    record is not saved. *)
Theorem save_to_history_rejects_malformed r w :
  history_file w = Malformed →
  ∃ e, save_to_history r w = (Raise e, w) ∧ exn_class e = JSONDecodeError.
Proof. intros H. rewrite (save_to_history_malformed r w H). eauto. Qed.

Lemma save_to_history_rejects_malformed_witness :
  ∃ e, save_to_history sample_record malformed_world = (Raise e, malformed_world) ∧
       exn_class e = JSONDecodeError.
Proof. apply (save_to_history_rejects_malformed sample_record malformed_world). reflexivity. Defined.

(** X10: saving a record adds exactly one entry to the history, leaves the
    selection of every other path as it was, and touches nothing but the
    history file. *)
Theorem save_to_history_keeps_other_paths r w file :
  history_file w ≠ Malformed →
  file ≠ test_file r →
  let w' := (save_to_history r w).2 in
  test_history (stored_history w') file = test_history (stored_history w) file ∧
  length (stored_history w') = S (length (stored_history w)) ∧
  files w' = files w ∧ sys_modules w' = sys_modules w ∧
  tracing w' = tracing w ∧ profiling w' = profiling w ∧
  plots w' = plots w ∧ events w' = events w.
Proof.
  intros H Hne. rewrite (save_to_history_stored r w H). cbn zeta. cbn [snd].
  assert (stored_history (set_history_file (Stored (stored_history w ++ [r])) w)
          = stored_history w ++ [r]) as -> by done.
  split_and!; try done.
  - unfold test_history. rewrite filter_app, filter_cons_False by congruence.
    by rewrite filter_nil, app_nil_r.
  - rewrite length_app. cbn. lia.
Qed.

Lemma save_to_history_keeps_other_paths_witness :
  test_history (stored_history (save_to_history sample_record history_world).2) "b.py"
    = test_history (stored_history history_world) "b.py".
Proof.
  apply (save_to_history_keeps_other_paths sample_record history_world "b.py");
    discriminate.
Defined.

Lemma plot_performance_history_keeps is_isoformat file w :
  let r := plot_performance_history is_isoformat file w in
  history_file r.2 = history_file w ∧ files r.2 = files w ∧
  sys_modules r.2 = sys_modules w ∧ events r.2 = events w ∧
  (∀ k, k ≠ plot_file file → plots r.2 !! k = plots w !! k) ∧
  (∀ e, r.1 = Raise e → r.2 = w).
Proof.
  rewrite plot_performance_history_paths.
  destruct (history_file w) as [| |history] eqn:Hh; [by cbn..|].
  destruct (test_history history file) as [|x l]; [by cbn|].
  cbn zeta. destruct (List.find _ _); [by cbn|].
  cbn [fst snd]. destruct w. cbn [set_plots plots history_file files sys_modules events].
  split_and!; try done. intros k Hk. by rewrite lookup_insert_ne.
Qed.

(** X11: plotting never changes the history, the files, the module table
    or the events; it writes at most the one image named after the path;
    and when it raises it has written nothing. *)
Theorem plot_performance_history_frame is_isoformat file w :
  let r := plot_performance_history is_isoformat file w in
  history_file r.2 = history_file w ∧ files r.2 = files w ∧
  sys_modules r.2 = sys_modules w ∧ events r.2 = events w ∧
  (∀ k, k ≠ plot_file file → plots r.2 !! k = plots w !! k) ∧
  (∀ e, r.1 = Raise e → r.2 = w).
Proof. apply plot_performance_history_keeps. Qed.

(** X12: if the timestamp of a selected record is not in ISO format, the
    plot raises [ValueError] for the first such record and writes no
    image. *)
Theorem plot_rejects_bad_timestamp is_isoformat file w history pre bad post :
  history_file w = Stored history →
  test_history history file = pre ++ bad :: post →
  Forall (λ entry, is_isoformat (timestamp entry) = true) pre →
  is_isoformat (timestamp bad) = false →
  plot_performance_history is_isoformat file w =
    (Raise (mkExn ValueError ("Invalid isoformat string: '" +:+ timestamp bad +:+ "'")), w).
Proof.
  intros Hh Hsel Hpre Hbad. rewrite plot_performance_history_paths, Hh, Hsel.
  assert (List.find (λ entry, negb (is_isoformat (timestamp entry))) (pre ++ bad :: post)
          = Some bad) as Hfind.
  { clear Hsel. induction Hpre as [|x pre Hx _ IH]; cbn [List.find app].
    - by rewrite Hbad.
    - by rewrite Hx. }
  destruct (pre ++ bad :: post) as [|x l] eqn:E; [by destruct pre|].
  cbn zeta. by rewrite Hfind.
Qed.

Lemma plot_rejects_bad_timestamp_witness :
  plot_performance_history (λ s, String.eqb s "2024-05-01T09:00:00") "b.py"
    (set_history_file (Stored [record_for "b.py" "2024-05-01T09:00:00";
                               record_for "b.py" "yesterday"]) sample_world) =
  (Raise (mkExn ValueError "Invalid isoformat string: 'yesterday'"),
   set_history_file (Stored [record_for "b.py" "2024-05-01T09:00:00";
                             record_for "b.py" "yesterday"]) sample_world).
Proof.
  apply (plot_rejects_bad_timestamp _ "b.py" _
           [record_for "b.py" "2024-05-01T09:00:00"; record_for "b.py" "yesterday"]
           [record_for "b.py" "2024-05-01T09:00:00"] (record_for "b.py" "yesterday") []);
    [reflexivity | reflexivity | by repeat constructor | reflexivity].
Defined.

Lemma contains_single_replace_same c d s :
  c ≠ d → Str.contains (String c "") (Str.replace_char c d s) = false.
Proof.
  intros Hne. induction s as [|x s IH]; [done|].
  cbn [Str.replace_char]. rewrite contains_single_cons, IH, orb_false_r.
  apply bool_decide_eq_false. destruct (Ascii.eqb_spec x c); congruence.
Qed.

Lemma contains_single_replace_other c c' d s :
  c ≠ d → Str.contains (String c "") s = false →
  Str.contains (String c "") (Str.replace_char c' d s) = false.
Proof.
  intros Hne. induction s as [|x s IH]; [done|].
  rewrite contains_single_cons. intros [Hx Hs]%orb_false_iff.
  cbn [Str.replace_char]. rewrite contains_single_cons, (IH Hs), orb_false_r.
  apply bool_decide_eq_false. apply bool_decide_eq_false in Hx.
  destruct (Ascii.eqb x c'); congruence.
Qed.

(** X13: the name of the image holds neither a slash nor a backslash,
    whatever the path: it names a file of the current directory. *)
Theorem plot_file_is_plain_name file :
  Str.contains "/" (plot_file file) = false ∧
  Str.contains "\" (plot_file file) = false.
Proof.
  unfold plot_file. split.
  - rewrite !contains_single_app, contains_single_replace_same by done. done.
  - rewrite !contains_single_app.
    rewrite (contains_single_replace_other "\" "/" "_");
      [done | done | by apply contains_single_replace_same].
Qed.

Lemma basename_go_plain cur b :
  Str.contains "/" b = false →
  Str.basename_go cur b = String.rev (String.rev_app b cur).
Proof.
  revert cur. induction b as [|x b IH]; intros cur; [done|].
  rewrite contains_single_cons. intros [Hx Hb]%orb_false_iff.
  apply bool_decide_eq_false in Hx. cbn [Str.basename_go String.rev_app].
  destruct (Ascii.eqb_spec x "/"); [congruence|]. by apply IH.
Qed.

Lemma basename_plain b : Str.contains "/" b = false → Str.basename b = b.
Proof.
  intros H. unfold Str.basename. rewrite (basename_go_plain "" b H).
  apply rev_involutive.
Qed.

Lemma basename_go_dir cur d b :
  Str.basename_go cur (d +:+ String "/" b) = Str.basename_go "" b.
Proof.
  revert cur. induction d as [|x d IH]; intros cur.
  - done.
  - rewrite app_String. cbn [Str.basename_go]. by destruct (Ascii.eqb x "/").
Qed.

(** X14: the image is named after the last component of the path alone, so
    the histories of two files of the same name in different directories
    are plotted to the same image, the later plot replacing the earlier. *)
Theorem plot_file_by_basename dir_path base :
  Str.contains "/" base = false →
  plot_file (dir_path +:+ "/" +:+ base) = plot_file base.
Proof.
  intros H. unfold plot_file.
  assert (Str.basename (dir_path +:+ "/" +:+ base) = Str.basename base) as ->; [|done].
  unfold Str.basename.
  change (dir_path +:+ "/" +:+ base) with (dir_path +:+ String "/" base).
  apply basename_go_dir.
Qed.

Lemma plot_file_by_basename_witness :
  plot_file ("v1/tests" +:+ "/" +:+ "t.py") = plot_file "t.py" ∧
  plot_file ("v2" +:+ "/" +:+ "t.py") = plot_file "t.py".
Proof.
  split; apply plot_file_by_basename; reflexivity.
Defined.

End HistoryMore.

(** ** The analysis: answers, keys, and what it leaves alone *)

Section AnalysisMore.

Variable format_2f : Q → string.

(** X15: once the prompt is built and the endpoint answers with a status
    that is not 4xx or 5xx, [analyze_with_llm] returns the [response]
    field of the JSON body as it is; a body that is not JSON, or that has
    no [response] field, gives the error text instead. *)
Theorem analyze_with_llm_answer profile_data analysis_type r w prompt w1 :
  build_prompt format_2f profile_data analysis_type w = (Return prompt, w1) →
  ¬ (400 ≤ status_code r < 600)%Z →
  analyze_with_llm format_2f profile_data analysis_type (PostReturns r) w =
    (Return match json r with
            | inl msg => "Error analyzing with LLM: " +:+ msg
            | inr obj =>
                match obj !! "response" with
                | Some s => s
                | None => "Error analyzing with LLM: 'response'"
                end
            end, w).
Proof.
  intros Hb Hst.
  destruct (analyze_with_llm_built format_2f _ _ (PostReturns r) _ _ _ Hb) as [_ ->].
  unfold generate, requests_post, raise_for_status, json_response, bind, ret, raise.
  destruct ((400 <=? status_code r) && (status_code r <? 600))%Z eqn:Hc.
  - apply andb_true_iff in Hc as [H1%Z.leb_le H2%Z.ltb_lt]. lia.
  - destruct (json r) as [msg|obj]; [done|]. by destruct (obj !! "response").
Qed.

(** X16: the dictionary must have the keys of the analysis type: a profile
    record analysed as [comparative], or a comparison analysed otherwise,
    raises [KeyError] before any request is made, and the [try] does not
    catch it; an analysis type that is neither [comparative] nor [pattern]
    is treated as the standard one. *)
Theorem analyze_with_llm_keys http w :
  (∀ pd, analyze_with_llm format_2f (Single pd) "comparative" http w =
           (Raise (mkExn KeyError "'test_file1'"), w)) ∧
  (∀ cd analysis_type, analysis_type ≠ "comparative" →
     analyze_with_llm format_2f (Comparative cd) analysis_type http w =
       (Raise (mkExn KeyError "'test_file'"), w)) ∧
  (∀ profile_data analysis_type,
     analysis_type ≠ "comparative" → analysis_type ≠ "pattern" →
     analyze_with_llm format_2f profile_data analysis_type http w =
       analyze_with_llm format_2f profile_data "standard" http w).
Proof.
  split_and!.
  - done.
  - intros cd ty Hty. unfold analyze_with_llm, build_prompt, bind.
    rewrite decide_False by done. by case_decide.
  - intros pd ty H1 H2. unfold analyze_with_llm, build_prompt, bind.
    by rewrite !decide_False by done.
Qed.

Lemma analyze_with_llm_world profile_data analysis_type http w :
  (analyze_with_llm format_2f profile_data analysis_type http w).2 = w.
Proof.
  pose proof (build_prompt_frame format_2f profile_data analysis_type w) as Hw.
  destruct (build_prompt format_2f profile_data analysis_type w) as [[prompt|e] w1] eqn:Hb;
    cbn in Hw; subst w1.
  - destruct (analyze_with_llm_built format_2f _ _ http _ _ _ Hb) as [_ ->].
    by destruct (generate prompt http w).1.
  - unfold analyze_with_llm, bind. by rewrite Hb.
Qed.

(** X17: [analyze_with_llm] changes nothing in the world, and what it
    raises, if anything, was raised while the prompt was built. *)
Theorem analyze_with_llm_frame profile_data analysis_type http w :
  (analyze_with_llm format_2f profile_data analysis_type http w).2 = w ∧
  ∀ e, (analyze_with_llm format_2f profile_data analysis_type http w).1 = Raise e →
       (build_prompt format_2f profile_data analysis_type w).1 = Raise e.
Proof.
  pose proof (build_prompt_frame format_2f profile_data analysis_type w) as Hw.
  destruct (build_prompt format_2f profile_data analysis_type w) as [[prompt|e] w1] eqn:Hb;
    cbn in Hw; subst w1.
  - destruct (analyze_with_llm_built format_2f _ _ http _ _ _ Hb) as [_ ->].
    by destruct (generate prompt http w).1.
  - unfold analyze_with_llm, bind. by rewrite Hb.
Qed.


(** X19: for a path with no file, [analyze_test_code] raises
    [FileNotFoundError] before anything is started: no instrument, no
    event, nothing changed. *)
Theorem analyze_test_code_refuses_missing_file file save_history rd http w :
  files w !! file = None →
  analyze_test_code format_2f file save_history rd http w =
    (Raise (mkExn FileNotFoundError ("Test file " +:+ file +:+ " not found")), w).
Proof. apply analyze_test_code_missing. Qed.

Lemma analyze_test_code_after_run file save_history rd http w f :
  files w !! file = Some f →
  analyze_test_code format_2f file save_history rd http w =
    match run_test_with_profiling file rd w with
    | (Raise e, w1) => (Raise e, w1)
    | (Return pd, w1) =>
        match (if save_history then save_to_history pd else ret ()) w1 with
        | (Raise e, w2) => (Raise e, w2)
        | (Return _, w2) =>
            match analyze_with_llm format_2f (Single pd) "standard" http w2 with
            | (Raise e, w3) => (Raise e, w3)
            | (Return analysis, w3) =>
                (Return {| result_profile_data := pd;
                           formatted_profile := _format_profiling_results format_2f pd;
                           optimization_suggestions := analysis |}, w3)
            end
        end
    end.
Proof.
  intros Hf. unfold analyze_test_code, bind, get. rewrite Hf.
  rewrite bool_decide_eq_true_2 by eauto. cbn [negb].
  destruct (run_test_with_profiling file rd w) as [[pd|e] w1]; [|done].
  destruct ((if save_history then save_to_history pd else ret ()) w1) as [[[]|e] w2]; [|done].
  by destruct (analyze_with_llm format_2f (Single pd) "standard" http w2) as [[a|e] w3].
Qed.

(** The single-file analysis after a returning run, with a history that
    can be saved: the record is saved, then the file is read, then the
    request is made. *)
Lemma analyze_test_code_steps file save_history rd http w pd w1 :
  run_test_with_profiling file rd w = (Return pd, w1) →
  (save_history = true → history_file w ≠ Malformed) →
  ∃ f, files w !! file = Some f ∧
       let w2 := if save_history
                 then set_history_file (Stored (stored_history w ++ [pd])) w1
                 else w1 in
       match text f with
       | Some original_code =>
           analyze_test_code format_2f file save_history rd http w =
             (Return {| result_profile_data := pd;
                        formatted_profile := _format_profiling_results format_2f pd;
                        optimization_suggestions :=
                          match (generate (prompt_standard format_2f original_code pd)
                                   http w2).1 with
                          | Return s => s
                          | Raise e => "Error analyzing with LLM: " +:+ exn_str e
                          end |}, w2)
       | None =>
           ∃ e, analyze_test_code format_2f file save_history rd http w = (Raise e, w2) ∧
                exn_class e = UnicodeDecodeError
       end.
Proof.
  intros Hrun Hh.
  pose proof (run_test_with_profiling_keeps file rd w) as Hfr. rewrite Hrun in Hfr.
  cbn in Hfr. destruct Hfr as (Hfs & Hhf & _ & _).
  pose proof Hrun as Hrun'.
  apply run_test_with_profiling_Return in Hrun' as (f & _ & Hf & _ & _ & Hpd & _).
  exists f. split; [done|]. cbn zeta.
  rewrite (analyze_test_code_after_run _ _ _ _ _ f Hf), Hrun.
  set (w2 := if save_history
             then set_history_file (Stored (stored_history w ++ [pd])) w1 else w1).
  assert ((if save_history then save_to_history pd else ret ()) w1 = (Return (), w2)) as ->.
  { subst w2. destruct save_history; [|done].
    rewrite save_to_history_stored by (rewrite Hhf; auto).
    unfold stored_history. by rewrite Hhf. }
  assert (files w2 = files w) as Hfs2.
  { subst w2. by destruct save_history. }
  clearbody w2.
  assert (test_file pd = file) as Hpath by (by subst pd).
  destruct (text f) as [original_code|] eqn:Htext.
  - assert (build_prompt format_2f (Single pd) "standard" w2
            = (Return (prompt_standard format_2f original_code pd), w2)) as Hb.
    { unfold build_prompt. rewrite !decide_False by done.
      unfold single_key, read_file, bind, get, ret.
      by rewrite Hpath, Hfs2, Hf, Htext. }
    destruct (analyze_with_llm_built format_2f _ _ http _ _ _ Hb) as [_ ->].
    by destruct (generate _ http w2).1.
  - unfold analyze_with_llm, build_prompt, bind. rewrite !decide_False by done.
    unfold single_key, read_file, bind, get, ret, raise.
    rewrite Hpath, Hfs2, Hf, Htext. eauto.
Qed.

(** X20: when profiling returns and the history is absent or well-formed
    (or is not to be saved), [analyze_test_code] first appends the record
    to the history, exactly when [save_history] is set, and then reads the
    test file, outside any [try].  If the file does not decode as text the
    call raises [UnicodeDecodeError], with the record already saved and no
    request made; otherwise it returns the profile, its summary, and the
    suggestions: the [response] field or, when the request fails in any
    way, ["Error analyzing with LLM: "] and the message.  Nothing else is
    changed after the run. *)
Theorem analyze_test_code_saves_then_reads file save_history rd http w pd w1 :
  run_test_with_profiling file rd w = (Return pd, w1) →
  (save_history = true → history_file w ≠ Malformed) →
  ∃ f, files w !! file = Some f ∧
       let w2 := if save_history
                 then set_history_file (Stored (stored_history w ++ [pd])) w1
                 else w1 in
       match text f with
       | Some original_code =>
           analyze_test_code format_2f file save_history rd http w =
             (Return {| result_profile_data := pd;
                        formatted_profile := _format_profiling_results format_2f pd;
                        optimization_suggestions :=
                          match (generate (prompt_standard format_2f original_code pd)
                                   http w2).1 with
                          | Return s => s
                          | Raise e => "Error analyzing with LLM: " +:+ exn_str e
                          end |}, w2)
       | None =>
           ∃ e, analyze_test_code format_2f file save_history rd http w = (Raise e, w2) ∧
                exn_class e = UnicodeDecodeError
       end.
Proof. apply analyze_test_code_steps. Qed.

End AnalysisMore.

Lemma analyze_with_llm_answer_witness :
  analyze_with_llm (λ _, "0.00") (Single sample_record) "pattern"
    (PostReturns {| status_code := 200; http_error_msg := "";
                    json := inr {[ "response" := "Use a set." ]} |}) sample_world =
  (Return "Use a set.", sample_world).
Proof.
  etrans.
  - eapply (analyze_with_llm_answer (λ _, "0.00") (Single sample_record) "pattern"
              {| status_code := 200; http_error_msg := "";
                 json := inr {[ "response" := "Use a set." ]} |} sample_world);
      [reflexivity | cbn; lia].
  - by vm_compute.
Defined.

Lemma analyze_test_code_refuses_missing_file_witness :
  analyze_test_code (λ _, "0.00") "gone.py" true sample_readings
    (PostRaises "Connection refused") sample_world =
  (Raise (mkExn FileNotFoundError "Test file gone.py not found"), sample_world).
Proof.
  apply (analyze_test_code_refuses_missing_file (λ _, "0.00") "gone.py" true
           sample_readings (PostRaises "Connection refused") sample_world).
  reflexivity.
Defined.


Lemma analyze_test_code_saves_then_reads_witness :
  (∃ r w', analyze_test_code (λ _, "0.00") "a.py" true sample_readings
             (PostRaises "Connection refused") sample_world = (Return r, w') ∧
           stored_history w' = [result_profile_data r]) ∧
  (∃ e w', analyze_test_code (λ _, "0.00") "a.pyc" true sample_readings
             (PostRaises "Connection refused")
             (world_of {[ "a.pyc" := bytecode_of ok_fail_module ]}) = (Raise e, w') ∧
           exn_class e = UnicodeDecodeError ∧
           length (stored_history w') = 1%nat).
Proof.
  split.
  - edestruct (analyze_test_code_saves_then_reads (λ _, "0.00") "a.py" true
                 sample_readings (PostRaises "Connection refused") sample_world)
      as (f & Hf & H).
    + by vm_compute.
    + intros _. discriminate.
    + vm_compute in Hf. injection Hf as <-. cbn [text source_of] in H.
      eexists _, _. split; [exact H | reflexivity].
  - edestruct (analyze_test_code_saves_then_reads (λ _, "0.00") "a.pyc" true
                 sample_readings (PostRaises "Connection refused")
                 (world_of {[ "a.pyc" := bytecode_of ok_fail_module ]}))
      as (f & Hf & H).
    + by vm_compute.
    + intros _. discriminate.
    + vm_compute in Hf. injection Hf as <-. cbn [text bytecode_of] in H.
      destruct H as (e & He & Hc).
      eexists _, _. split; [exact He|]. split; [exact Hc | reflexivity].
Defined.

(** ** Which paths save to the history *)

Section Saving.

Variable format_2f : Q → string.

(** X21: with a history file that [json.load] rejects, the single-file
    analysis profiles the file and then raises: the profile is not given
    back, the endpoint is not asked, and the world is as the run left
    it. *)
Theorem analyze_test_code_malformed_history file rd http w pd w1 :
  run_test_with_profiling file rd w = (Return pd, w1) →
  history_file w = Malformed →
  ∃ e, analyze_test_code format_2f file true rd http w = (Raise e, w1) ∧
       exn_class e = JSONDecodeError.
Proof.
  intros Hrun Hh.
  pose proof (run_test_with_profiling_keeps file rd w) as Hfr. rewrite Hrun in Hfr.
  cbn in Hfr. destruct Hfr as (_ & Hhf & _ & _).
  pose proof Hrun as Hrun'.
  apply run_test_with_profiling_Return in Hrun' as (f & _ & Hf & _).
  rewrite (analyze_test_code_after_run _ _ _ _ _ _ f Hf), Hrun.
  rewrite save_to_history_malformed by congruence. eauto.
Qed.

Lemma compare_implementations_history file1 file2 rd1 rd2 http w :
  history_file (compare_implementations format_2f file1 file2 rd1 rd2 http w).2
    = history_file w.
Proof.
  rewrite compare_implementations_paths.
  pose proof (run_test_with_profiling_keeps file1 rd1 w) as (_ & H1 & _).
  destruct (run_test_with_profiling file1 rd1 w) as [[p1|e1] w1]; [|done].
  pose proof (run_test_with_profiling_keeps file2 rd2 w1) as (_ & H2 & _).
  destruct (run_test_with_profiling file2 rd2 w1) as [[p2|e2] w2]; cbn in *; congruence.
Qed.

Lemma analyze_test_patterns_history file rd http w :
  history_file (analyze_test_patterns file rd http w).2 = history_file w.
Proof.
  pose proof (run_test_with_profiling_keeps file rd w) as (_ & Hh & _).
  destruct (run_test_with_profiling file rd w) as [[pd|e] w1] eqn:Hrun.
  - destruct (analyze_test_patterns_after_run file rd http w pd w1 Hrun) as (f & _ & H).
    destruct (text f); [by rewrite H|]. by destruct H as (e & -> & _).
  - unfold analyze_test_patterns, bind. by rewrite Hrun.
Qed.

Lemma analyze_test_code_unsaved_history file rd http w :
  history_file (analyze_test_code format_2f file false rd http w).2 = history_file w.
Proof.
  destruct (files w !! file) as [f|] eqn:Hf.
  - rewrite (analyze_test_code_after_run _ _ _ _ _ _ f Hf).
    pose proof (run_test_with_profiling_keeps file rd w) as (_ & Hh & _).
    destruct (run_test_with_profiling file rd w) as [[pd|e] w1]; [|done].
    cbn [ret].
    pose proof (analyze_with_llm_world format_2f (Single pd) "standard" http w1) as Hw.
    by destruct (analyze_with_llm format_2f (Single pd) "standard" http w1)
      as [[a|e] w3]; cbn in Hw; subst w3.
  - by rewrite analyze_test_code_missing.
Qed.

(** X22: only the single-file analysis with [save_history] set writes the
    history: the comparison, the pattern analysis and the single-file
    analysis without [save_history] leave the history file as it was,
    whatever they return or raise. *)
Theorem history_saved_only_by_analyze_test_code file1 file2 rd1 rd2 http w :
  history_file (compare_implementations format_2f file1 file2 rd1 rd2 http w).2
    = history_file w ∧
  history_file (analyze_test_patterns file1 rd1 http w).2 = history_file w ∧
  history_file (analyze_test_code format_2f file1 false rd1 http w).2 = history_file w.
Proof.
  split_and!;
    [apply compare_implementations_history | apply analyze_test_patterns_history
    | apply analyze_test_code_unsaved_history].
Qed.

End Saving.

Lemma analyze_test_code_malformed_history_witness :
  ∃ e w1, analyze_test_code (λ _, "0.00") "a.py" true sample_readings
            (PostRaises "Connection refused") malformed_world = (Raise e, w1) ∧
          exn_class e = JSONDecodeError ∧ tracing w1 = false.
Proof.
  edestruct (analyze_test_code_malformed_history (λ _, "0.00") "a.py" sample_readings
               (PostRaises "Connection refused") malformed_world) as (e & Hrun & He).
  - by vm_compute.
  - reflexivity.
  - eexists _, _. split_and!; [exact Hrun | exact He | reflexivity].
Defined.

(** ** The command line *)

Section Main.

Lemma say_nil p : say [] p = p.
Proof. destruct p. unfold say. cbn. by rewrite app_nil_r. Qed.

Lemma say_say l1 l2 p : say l2 (say l1 p) = say (l1 ++ l2) p.
Proof. unfold say. cbn. by rewrite <- app_assoc. Qed.

(** [main], step by step, once the analyzer is constructed. *)
Lemma main_steps args env p t :
  env_py_int env (getenv (environ env) "PROFILING_TIMEOUT" "30") = Some t →
  main args env p =
    match dispatch args env (say (greeting args) p) with
    | (Raise e, p1) => on_error e p1
    | (Return results, p1) =>
        match history_step args env p1 with
        | (Raise e, p2) => on_error e p2
        | (Return _, p2) =>
            match output_step args env results p2 with
            | (Raise e, p3) => on_error e p3
            | (Return _, p3) => (Return 0, p3)
            end
        end
    end.
Proof.
  intros Ht. unfold main, CodeAnalyzer_init. rewrite Ht.
  assert ((if arg_verbose args
           then print ("Analyzing test file: " +:+ arg_test_file args) ;;!
                print "Running profiling..."
           else retN ()) p = (Return (), say (greeting args) p)) as H1.
  { unfold greeting. destruct (arg_verbose args).
    - unfold bindN, print, say. cbn. by rewrite <- app_assoc.
    - by rewrite say_nil. }
  unfold history_step, output_step.
  cbv beta delta [bindN try_exceptN] in H1 |- *. rewrite H1.
  destruct (dispatch args env (say (greeting args) p)) as [[results|e] p1];
    [|by unfold on_error, print, retN, say].
  destruct (if arg_history args then _ else _) as [[[]|e] p2];
    [|by unfold on_error, print, retN, say].
  destruct (if truthy (arg_output args) then _ else _) as [[[]|e] p3];
    [done|by unfold on_error, print, retN, say].
Qed.

(** X23: [main] gives back 0 or 1, and 1 only after printing
    ["Error: "] and the message as its last line; it lets no [Exception]
    of the analysis, the plot or the output through: what it raises is
    either not an [Exception], or the [ValueError] of the constructor,
    raised before anything is printed or run. *)
Theorem main_exit_code args env p :
  match main args env p with
  | (Return code, p') =>
      code = 0 ∨ (code = 1 ∧ ∃ msg, last (stdout p') = Some ("Error: " +:+ msg))
  | (Raise e, p') =>
      is_Exception (exn_class e) = false ∨ (exn_class e = ValueError ∧ p' = p)
  end.
Proof.
  destruct (env_py_int env (getenv (environ env) "PROFILING_TIMEOUT" "30")) as [t|] eqn:Ht.
  - rewrite (main_steps args env p t Ht).
    assert (∀ e q, match on_error e q with
                   | (Return code, p') =>
                       code = 0 ∨
                       (code = 1 ∧ ∃ msg, last (stdout p') = Some ("Error: " +:+ msg))
                   | (Raise e', p') =>
                       is_Exception (exn_class e') = false ∨
                       (exn_class e' = ValueError ∧ p' = p)
                   end) as Herr.
    { intros e q. unfold on_error. destruct (is_Exception (exn_class e)) eqn:He.
      - right. split; [done|]. exists (exn_str e). unfold say. cbn. apply last_snoc.
      - by left. }
    destruct (dispatch args env (say (greeting args) p)) as [[results|e] p1]; [|apply Herr].
    destruct (history_step args env p1) as [[[]|e] p2]; [|apply Herr].
    destruct (output_step args env results p2) as [[[]|e] p3]; [by left|apply Herr].
  - unfold main, CodeAnalyzer_init. rewrite Ht. by right.
Qed.

(** X24: if [PROFILING_TIMEOUT] is set to a text that [int] rejects, [main]
    raises [ValueError] from the constructor, outside its [try]: no
    ["Error: "] line, no exit code, nothing printed and nothing run. *)
Theorem main_bad_timeout args env p :
  env_py_int env (getenv (environ env) "PROFILING_TIMEOUT" "30") = None →
  ∃ e, main args env p = (Raise e, p) ∧ exn_class e = ValueError.
Proof. intros Ht. unfold main, CodeAnalyzer_init. rewrite Ht. eauto. Qed.

(** X25: in the single-file mode, a path with no file makes [main] print
    ["Error: Test file ... not found"] and give back 1, with nothing
    profiled, saved, plotted or written, even with [--history]. *)
Theorem main_missing_file args env p t :
  env_py_int env (getenv (environ env) "PROFILING_TIMEOUT" "30") = Some t →
  truthy (arg_compare args) = false →
  arg_patterns args = false →
  files (world p) !! arg_test_file args = None →
  main args env p =
    (Return 1,
     say (greeting args ++ ["Error: Test file " +:+ arg_test_file args +:+ " not found"]) p).
Proof.
  intros Ht Hc Hp Hf. rewrite (main_steps args env p t Ht).
  unfold dispatch. rewrite Hc, Hp. unfold bindN, lift.
  assert (world (say (greeting args) p) = world p) as -> by done.
  rewrite analyze_test_code_missing by done.
  unfold on_error. cbn [exn_class is_Exception exn_str].
  f_equal. unfold say. cbn. by rewrite <- app_assoc.
Qed.

End Main.

Lemma main_bad_timeout_witness :
  ∃ e, main sample_args
         {| environ := {[ "PROFILING_TIMEOUT" := "soon" ]};
            env_py_int := env_py_int sample_env;
            env_format_2f := env_format_2f sample_env;
            env_is_isoformat := env_is_isoformat sample_env;
            readings1 := sample_readings; readings2 := sample_readings;
            endpoint := endpoint sample_env; open_error := open_error sample_env |}
         (start sample_world) = (Raise e, start sample_world) ∧
       exn_class e = ValueError.
Proof. apply main_bad_timeout. reflexivity. Defined.

Lemma main_missing_file_witness :
  main {| arg_test_file := "gone.py"; arg_output := None; arg_verbose := true;
          arg_timeout := 30; arg_compare := None; arg_history := true;
          arg_patterns := false |} sample_env (start sample_world) =
  (Return 1,
   {| world := sample_world;
      stdout := ["Analyzing test file: gone.py"; "Running profiling...";
                 "Error: Test file gone.py not found"];
      outputs := ∅ |}).
Proof.
  etrans; [apply (main_missing_file _ sample_env (start sample_world) 30); reflexivity|].
  reflexivity.
Defined.

(** ** The command line: modes, the history and the plot *)

Section MainModes.

Lemma keeps_history_lift {A} (m : M A) :
  (∀ w, history_file (m w).2 = history_file w) → keeps_history (lift m).
Proof.
  intros H p. unfold lift. specialize (H (world p)).
  by destruct (m (world p)) as [r w'].
Qed.

Lemma keeps_history_bind {A B} (m : N A) (k : A → N B) :
  keeps_history m → (∀ a, keeps_history (k a)) → keeps_history (bindN m k).
Proof.
  intros Hm Hk p. unfold bindN. specialize (Hm p).
  destruct (m p) as [[a|e] p1]; [|done].
  cbn in Hm. by rewrite (Hk a p1).
Qed.

Lemma keeps_history_print line : keeps_history (print line).
Proof. done. Qed.

Lemma keeps_history_ret {A} (a : A) : keeps_history (retN a).
Proof. done. Qed.

Lemma keeps_history_raise {A} e : keeps_history (@raiseN A e).
Proof. done. Qed.

Lemma keeps_history_results_key results key : keeps_history (results_key results key).
Proof.
  unfold results_key. destruct results; repeat case_match;
    first [apply keeps_history_ret | apply keeps_history_raise].
Qed.

Lemma keeps_history_output_step args env results :
  keeps_history (output_step args env results).
Proof.
  unfold output_step, print_results, write_results.
  repeat case_match;
    repeat first [ apply keeps_history_bind; [|intros ?]
                 | apply keeps_history_print
                 | apply keeps_history_results_key
                 | apply keeps_history_raise
                 | done ].
Qed.

Lemma keeps_history_history_step args env : keeps_history (history_step args env).
Proof.
  unfold history_step. case_match; [|apply keeps_history_ret].
  apply keeps_history_bind; [|intros; apply keeps_history_print].
  apply keeps_history_lift. intros w.
  apply (plot_performance_history_keeps (env_is_isoformat env) (arg_test_file args) w).
Qed.

Lemma keeps_history_dispatch args env :
  truthy (arg_compare args) = true ∨ arg_patterns args = true →
  keeps_history (dispatch args env).
Proof.
  intros Hmode. unfold dispatch.
  destruct (truthy (arg_compare args)) eqn:Hc.
  - apply keeps_history_bind; [|intros; apply keeps_history_ret].
    apply keeps_history_lift. intros w. apply compare_implementations_history.
  - destruct Hmode as [?|Hp]; [done|]. rewrite Hp.
    apply keeps_history_bind; [|intros; apply keeps_history_ret].
    apply keeps_history_lift. intros w. apply analyze_test_patterns_history.
Qed.

Lemma on_error_history e p :
  history_file (world (on_error e p).2) = history_file (world p).
Proof. unfold on_error. by destruct (is_Exception (exn_class e)). Qed.

Lemma writes_only_lift {A} out (m : M A) : writes_only out (lift m).
Proof. intros p path _. unfold lift. by destruct (m (world p)). Qed.

Lemma writes_only_bind {A B} out (m : N A) (k : A → N B) :
  writes_only out m → (∀ a, writes_only out (k a)) → writes_only out (bindN m k).
Proof.
  intros Hm Hk p path Hpath. unfold bindN. specialize (Hm p path Hpath).
  destruct (m p) as [[a|e] p1]; [|done].
  cbn in Hm. by rewrite (Hk a p1 path Hpath).
Qed.

Lemma writes_only_print out line : writes_only out (print line).
Proof. done. Qed.

Lemma writes_only_ret {A} out (a : A) : writes_only out (retN a).
Proof. done. Qed.

Lemma writes_only_raise {A} out e : writes_only out (@raiseN A e).
Proof. done. Qed.

Lemma writes_only_results_key out results key : writes_only out (results_key results key).
Proof.
  unfold results_key. destruct results; repeat case_match;
    first [apply writes_only_ret | apply writes_only_raise].
Qed.

Lemma writes_only_write_results out results env :
  writes_only out (write_results out results env).
Proof.
  unfold write_results. destruct (open_error env out); [apply writes_only_raise|].
  intros p path Hpath. cbn. by rewrite lookup_insert_ne.
Qed.

Lemma writes_only_output_step args env results :
  writes_only (default "" (arg_output args)) (output_step args env results).
Proof.
  unfold output_step, print_results.
  repeat case_match;
    repeat first [ apply writes_only_bind; [|intros ?]
                 | apply writes_only_write_results
                 | apply writes_only_print
                 | apply writes_only_results_key ].
Qed.

Lemma writes_only_history_step out args env : writes_only out (history_step args env).
Proof.
  unfold history_step. case_match; [|apply writes_only_ret].
  apply writes_only_bind; [apply writes_only_lift | intros; apply writes_only_print].
Qed.

Lemma writes_only_dispatch out args env : writes_only out (dispatch args env).
Proof.
  unfold dispatch.
  repeat case_match;
    (apply writes_only_bind; [apply writes_only_lift | intros; apply writes_only_ret]).
Qed.

Lemma on_error_outputs e p : outputs (on_error e p).2 = outputs p.
Proof. unfold on_error. by destruct (is_Exception (exn_class e)). Qed.

(** X26: with [--compare] or [--patterns], [main] never saves to the
    history, and the only result file it writes is the one given to
    [--output].  So, unless that path may name the history file, which
    [main] would then overwrite with the results, the history file is as
    it was, whatever [main] prints, returns or raises. *)
Theorem main_modes_leave_history args env p :
  truthy (arg_compare args) = true ∨ arg_patterns args = true →
  may_name (default "" (arg_output args)) "performance_history.json" = false →
  let p' := (main args env p).2 in
  history_file (world p') = history_file (world p) ∧
  ∀ path, path ≠ default "" (arg_output args) → outputs p' !! path = outputs p !! path.
Proof.
  intros Hmode _ p'. subst p'.
  destruct (env_py_int env (getenv (environ env) "PROFILING_TIMEOUT" "30")) as [t|] eqn:Ht.
  - rewrite (main_steps args env p t Ht).
    set (out := default "" (arg_output args)).
    pose proof (keeps_history_dispatch args env Hmode (say (greeting args) p)) as Hd.
    pose proof (writes_only_dispatch out args env (say (greeting args) p)) as Hd'.
    destruct (dispatch args env (say (greeting args) p)) as [[results|e] p1];
      cbn in Hd, Hd'.
    + pose proof (keeps_history_history_step args env p1) as Hh.
      pose proof (writes_only_history_step out args env p1) as Hh'.
      destruct (history_step args env p1) as [[[]|e] p2]; cbn in Hh, Hh'.
      * pose proof (keeps_history_output_step args env results p2) as Ho.
        pose proof (writes_only_output_step args env results p2) as Ho'.
        fold out in Ho'.
        destruct (output_step args env results p2) as [[[]|e] p3]; cbn in Ho, Ho'.
        -- cbn. split; [congruence|]. intros path Hpath.
           by rewrite Ho', Hh', Hd'.
        -- rewrite on_error_history, on_error_outputs. split; [congruence|].
           intros path Hpath. by rewrite Ho', Hh', Hd'.
      * rewrite on_error_history, on_error_outputs. split; [congruence|].
        intros path Hpath. by rewrite Hh', Hd'.
    + rewrite on_error_history, on_error_outputs. split; [congruence|].
      intros path Hpath. by rewrite Hd'.
  - unfold main, CodeAnalyzer_init. by rewrite Ht.
Qed.

(** X27: an empty [--compare] or [--output] value counts as absent; with a
    non-empty [--compare] the [--patterns] flag changes nothing; and the
    [--timeout] value changes nothing at all. *)
Theorem main_option_precedence env p file out verbose timeout cmp history patterns :
  main {| arg_test_file := file; arg_output := out; arg_verbose := verbose;
          arg_timeout := timeout; arg_compare := Some ""; arg_history := history;
          arg_patterns := patterns |} env p =
  main {| arg_test_file := file; arg_output := out; arg_verbose := verbose;
          arg_timeout := timeout; arg_compare := None; arg_history := history;
          arg_patterns := patterns |} env p ∧
  main {| arg_test_file := file; arg_output := Some ""; arg_verbose := verbose;
          arg_timeout := timeout; arg_compare := cmp; arg_history := history;
          arg_patterns := patterns |} env p =
  main {| arg_test_file := file; arg_output := None; arg_verbose := verbose;
          arg_timeout := timeout; arg_compare := cmp; arg_history := history;
          arg_patterns := patterns |} env p ∧
  (truthy cmp = true →
   main {| arg_test_file := file; arg_output := out; arg_verbose := verbose;
           arg_timeout := timeout; arg_compare := cmp; arg_history := history;
           arg_patterns := patterns |} env p =
   main {| arg_test_file := file; arg_output := out; arg_verbose := verbose;
           arg_timeout := timeout; arg_compare := cmp; arg_history := history;
           arg_patterns := negb patterns |} env p) ∧
  (∀ timeout',
   main {| arg_test_file := file; arg_output := out; arg_verbose := verbose;
           arg_timeout := timeout; arg_compare := cmp; arg_history := history;
           arg_patterns := patterns |} env p =
   main {| arg_test_file := file; arg_output := out; arg_verbose := verbose;
           arg_timeout := timeout'; arg_compare := cmp; arg_history := history;
           arg_patterns := patterns |} env p).
Proof.
  split_and!.
  - reflexivity.
  - reflexivity.
  - intros Hc. unfold main, dispatch, print_results.
    cbn [arg_test_file arg_output arg_verbose arg_timeout arg_compare arg_history
         arg_patterns].
    by rewrite Hc.
  - reflexivity.
Qed.

End MainModes.

Lemma main_modes_leave_history_witness :
  history_file (world (main {| arg_test_file := "a.py"; arg_output := Some "out.json";
                               arg_verbose := false; arg_timeout := 30;
                               arg_compare := Some "b.py"; arg_history := true;
                               arg_patterns := false |}
                         sample_env (start two_file_world)).2) = NoFile.
Proof.
  etrans; [|reflexivity].
  apply (main_modes_leave_history
           {| arg_test_file := "a.py"; arg_output := Some "out.json";
              arg_verbose := false; arg_timeout := 30;
              arg_compare := Some "b.py"; arg_history := true;
              arg_patterns := false |} sample_env (start two_file_world));
    [left; reflexivity | reflexivity].
Defined.

(** ** The command line: the single-file mode with [--history] *)

Section MainHistory.

Lemma keeps_world_output_step args env results p :
  world (output_step args env results p).2 = world p.
Proof.
  unfold output_step, print_results, write_results, results_key, bindN, print,
    retN, raiseN.
  repeat case_match; simplify_eq/=; done.
Qed.

(** In the single-file mode the results printed have their keys. *)
Lemma output_step_returns args env r p :
  truthy (arg_compare args) = false → arg_patterns args = false →
  (truthy (arg_output args) = true →
     open_error env (default "" (arg_output args)) = None) →
  ∃ p', output_step args env (ResAnalysis r) p = (Return (), p').
Proof.
  intros Hc Hp Hopen. unfold output_step.
  destruct (truthy (arg_output args)).
  - unfold write_results, bindN, print. rewrite Hopen by done. eauto.
  - unfold print_results. rewrite Hc, Hp.
    unfold bindN, print, results_key, retN. cbn. eauto.
Qed.

Lemma last_plotted_series selected pd :
  last (plotted_series (selected ++ [pd])) =
    Some (timestamp pd, execution_time pd, peak (memory_usage pd)).
Proof. unfold plotted_series. rewrite map_app. apply last_snoc. Qed.

(** X28: in the single-file mode with [--history], when profiling
    returns, the test file decodes as text, the history is absent or
    well-formed, its timestamps for the path are in ISO format, and the
    [--output] path, if any, can be opened and may name neither the history
    file nor the plot, [main] gives back 0, the record of this run is
    appended to the history, and the plot made afterwards has one point
    for each earlier record of the path, in order, and then the point of
    this run: its timestamp, execution time and memory peak. *)
Theorem main_plots_the_new_record args env w pd w1 t f original_code :
  env_py_int env (getenv (environ env) "PROFILING_TIMEOUT" "30") = Some t →
  truthy (arg_compare args) = false →
  arg_patterns args = false →
  arg_history args = true →
  run_test_with_profiling (arg_test_file args) (readings1 env) w = (Return pd, w1) →
  files w !! arg_test_file args = Some f →
  text f = Some original_code →
  history_file w ≠ Malformed →
  Forall (λ entry, env_is_isoformat env (timestamp entry) = true)
    (test_history (stored_history w) (arg_test_file args)) →
  env_is_isoformat env (timestamp pd) = true →
  (truthy (arg_output args) = true →
     open_error env (default "" (arg_output args)) = None ∧
     may_name (default "" (arg_output args)) "performance_history.json" = false ∧
     may_name (default "" (arg_output args)) (plot_file (arg_test_file args)) = false) →
  ∃ p' series,
    main args env (start w) = (Return 0, p') ∧
    stored_history (world p') = stored_history w ++ [pd] ∧
    plots (world p') !! plot_file (arg_test_file args) = Some series ∧
    series =
      map (λ entry, (timestamp entry, execution_time entry, peak (memory_usage entry)))
        (test_history (stored_history w) (arg_test_file args)) ++
      [(timestamp pd, execution_time pd, peak (memory_usage pd))] ∧
    last series = Some (timestamp pd, execution_time pd, peak (memory_usage pd)).
Proof.
  intros Ht Hc Hp Hh Hrun Hf Htext Hhist Hiso Hisopd Hout.
  assert (truthy (arg_output args) = true →
          open_error env (default "" (arg_output args)) = None) as Hopen.
  { intros Ho. by destruct (Hout Ho). }
  rewrite (main_steps args env (start w) t Ht).
  destruct (analyze_test_code_steps (env_format_2f env) (arg_test_file args) true
              (readings1 env) (endpoint env) w pd w1 Hrun (λ _, Hhist))
    as (f' & Hf' & Hatc).
  assert (f' = f) as -> by congruence.
  rewrite Htext in Hatc. cbn zeta in Hatc.
  unfold dispatch. rewrite Hc, Hp. unfold bindN at 1, lift.
  assert (world (say (greeting args) (start w)) = w) as -> by done.
  rewrite Hatc. unfold retN.
  set (w2 := set_history_file (Stored (stored_history w ++ [pd])) w1).
  set (r := {| result_profile_data := pd |}).
  set (p1 := {| world := w2 |}).
  assert (test_file pd = arg_test_file args) as Hpath.
  { apply run_test_with_profiling_Return in Hrun as (f0 & _ & _ & _ & _ & -> & _). done. }
  assert (test_history (stored_history w ++ [pd]) (arg_test_file args)
          = test_history (stored_history w) (arg_test_file args) ++ [pd]) as Hsel.
  { unfold test_history. rewrite filter_app. f_equal. by rewrite filter_cons_True. }
  assert (plot_performance_history (env_is_isoformat env) (arg_test_file args) w2 =
          (Return ("Performance history plot saved to " +:+ plot_file (arg_test_file args)),
           set_plots (<[plot_file (arg_test_file args) :=
                          plotted_series (test_history (stored_history w)
                                            (arg_test_file args) ++ [pd])]>) w2)) as Hplot.
  { rewrite plot_performance_history_paths.
    assert (history_file w2 = Stored (stored_history w ++ [pd])) as -> by done.
    rewrite Hsel.
    destruct (test_history (stored_history w) (arg_test_file args) ++ [pd])
      as [|x l] eqn:E; [by destruct (test_history (stored_history w) (arg_test_file args))|].
    assert (Forall (λ entry, env_is_isoformat env (timestamp entry) = true) (x :: l))
      as Hall.
    { rewrite <- E. apply Forall_app. split; [done|]. by constructor. }
    cbn zeta. by rewrite (find_invalid_None _ _ Hall). }
  unfold history_step. rewrite Hh. unfold bindN at 1, lift.
  assert (world p1 = w2) as -> by done. rewrite Hplot. unfold print.
  match goal with |- context [output_step args env (ResAnalysis r) ?p2] =>
    destruct (output_step_returns args env r p2 Hc Hp Hopen) as [p3 Hout3];
    pose proof (keeps_world_output_step args env (ResAnalysis r) p2) as Hw3;
    rewrite Hout3 in Hw3 |- *
  end.
  exists p3. eexists. split; [done|]. cbn in Hw3. rewrite Hw3. split_and!.
  - done.
  - destruct w1. apply lookup_insert_eq.
  - unfold plotted_series. by rewrite map_app.
  - apply last_plotted_series.
Qed.

End MainHistory.

Lemma main_plots_the_new_record_witness :
  ∃ p', main {| arg_test_file := "a.py"; arg_output := Some "out.json";
                arg_verbose := false; arg_timeout := 30; arg_compare := None;
                arg_history := true; arg_patterns := false |}
          sample_env (start sample_world) = (Return 0, p') ∧
        length (stored_history (world p')) = 1%nat ∧
        ∃ series, plots (world p') !! "performance_history_a.py.png" = Some series ∧
                  length series = 1%nat.
Proof.
  edestruct (main_plots_the_new_record
               {| arg_test_file := "a.py"; arg_output := Some "out.json";
                  arg_verbose := false; arg_timeout := 30; arg_compare := None;
                  arg_history := true; arg_patterns := false |} sample_env sample_world)
    as (p' & series & Hmain & Hs & Hplot & Hseries & _).
  - reflexivity.
  - reflexivity.
  - reflexivity.
  - reflexivity.
  - by vm_compute.
  - reflexivity.
  - reflexivity.
  - discriminate.
  - constructor.
  - reflexivity.
  - intros _. by split_and!.
  - exists p'. split; [exact Hmain|]. split; [by rewrite Hs|].
    exists series. split; [exact Hplot|]. by rewrite Hseries.
Defined.
